(** * github-repo-activity: the report pipeline, embedded and verified

    A shallow embedding of [repo-activity/repo-activity.go] (package [ghra])
    and of the HTTP handler of [server/server.go], with the properties of
    the query builder, the paginated fetch, the per-repository grouping and
    the request handler.

    Conventions of the embedding:
    - a Go [int] / [int64] is a [Z] in the 64-bit two's-complement range,
      with wrap-around written out where the code does arithmetic on it;
    - a Go [string] is a [string]; a nilable pointer field is an [option];
    - [map[string]*RepoActivityReport] is a [gmap string RepoActivityReport]:
      every pointer stored in the map is allocated by [BuildReport] itself
      under exactly one key and never escapes before the function returns,
      so a bucket is identified with the value stored under its key, and a
      [nil] lookup result is an absent key;
    - the search backend, the clock and the template engine are outside the
      repository: they are the operations of a [Platform], and a call
      threads the state of the world through them. *)

From Stdlib Require Import ZArith String Ascii List Lia Bool DecimalString.
From stdpp Require Import base option list strings gmap fin_maps.

Local Open Scope Z_scope.

(** ** Go machine integers *)

Module GoInt.

Definition minInt : Z := - 2 ^ 63.
Definition maxInt : Z := 2 ^ 63 - 1.

Definition in_range (z : Z) : Prop := minInt <= z <= maxInt.

(** Two's-complement wrap-around of a mathematical result to 64 bits. *)
Definition wrap (z : Z) : Z := (z + 2 ^ 63) mod 2 ^ 64 - 2 ^ 63.

Definition mul (a b : Z) : Z := wrap (a * b).

End GoInt.

(** ** Data model ([repo-activity.go], lines 15-54) *)

Record IssueAuthor := mkIssueAuthor {
  DisplayName : option string;
  ProfileURL : option string
}.

Record IssueInfo := mkIssueInfo {
  ID : option Z;
  Number : option Z;
  Title : option string;
  Author : IssueAuthor;
  Repo : string;
  URL : option string;
  Status : option string;
  Age : string
}.

Record RepoActivityReport := mkRepoActivityReport {
  Issues : list IssueInfo;
  PullRequests : list IssueInfo
}.

Record ActivityReport := mkActivityReport {
  RepoActivityReports : gmap string RepoActivityReport;
  TotalIssues : Z;
  TotalPullRequests : Z
}.

Record GitHubRepoActivityOptions := mkOptions {
  Repos : list string;
  DaysOld : Z;
  APIEndpoint : string;
  Token : string
}.

(** ** Report aggregation ([BuildReport], lines 154-173) *)

(** [&RepoActivityReport{}]: both slices nil. *)
Definition emptyRepoActivityReport : RepoActivityReport :=
  mkRepoActivityReport [] [].

(** [if repoReports[r] == nil { repoReports[r] = &RepoActivityReport{} }] *)
Definition ensureBucket (r : string) (m : gmap string RepoActivityReport)
  : gmap string RepoActivityReport :=
  match m !! r with
  | None => <[r := emptyRepoActivityReport]> m
  | Some _ => m
  end.

Definition appendIssue (i : IssueInfo) (b : RepoActivityReport) : RepoActivityReport :=
  mkRepoActivityReport (Issues b ++ [i]) (PullRequests b).

Definition appendPullRequest (p : IssueInfo) (b : RepoActivityReport) : RepoActivityReport :=
  mkRepoActivityReport (Issues b) (PullRequests b ++ [p]).

(** Body of the first loop (lines 156-159): the bucket of [i.Repo] exists
    after the guard, and the update goes through the pointer stored there. *)
Definition addIssue (m : gmap string RepoActivityReport) (i : IssueInfo)
  : gmap string RepoActivityReport :=
  alter (appendIssue i) (Repo i) (ensureBucket (Repo i) m).

(** Body of the second loop (lines 163-166). *)
Definition addPullRequest (m : gmap string RepoActivityReport) (p : IssueInfo)
  : gmap string RepoActivityReport :=
  alter (appendPullRequest p) (Repo p) (ensureBucket (Repo p) m).

(** Lines 154-167: both loops, starting from [make(map[string]*RepoActivityReport)]. *)
Definition groupByRepo (issues prs : list IssueInfo) : gmap string RepoActivityReport :=
  foldl addPullRequest (foldl addIssue ∅ issues) prs.

(** Lines 154-173: the report built from the two fetched lists. *)
Definition buildActivityReport (issues prs : list IssueInfo) : ActivityReport :=
  mkActivityReport (groupByRepo issues prs)
                   (Z.of_nat (length issues))
                   (Z.of_nat (length prs)).

(** Sum of a per-bucket count over all buckets of a report map. *)
Definition sumOverBuckets (count : RepoActivityReport → nat)
    (m : gmap string RepoActivityReport) : nat :=
  map_fold (λ _ b acc, (count b + acc)%nat) 0%nat m.

Definition issueCount (b : RepoActivityReport) : nat := length (Issues b).
Definition pullRequestCount (b : RepoActivityReport) : nat := length (PullRequests b).

(** The records of a list that belong to repository [r], in list order. *)
Definition recordsOf (r : string) (l : list IssueInfo) : list IssueInfo :=
  filter (λ i, Repo i = r) l.

(** The bucket of repository [r] as the grouping of the two inputs defines
    it: none when no record of either input belongs to [r], otherwise the
    records of [r] from each input, in input order. *)
Definition bucketOf (r : string) (issues prs : list IssueInfo)
  : option RepoActivityReport :=
  match recordsOf r issues, recordsOf r prs with
  | [], [] => None
  | issues', prs' => Some (mkRepoActivityReport issues' prs')
  end.

(** ** Strings: the library calls of the source *)

Module Strings.

(** [strings.Join(elems, sep)] *)
Definition Join (elems : list string) (sep : string) : string :=
  String.concat sep elems.

(** [strings.TrimPrefix(s, prefix)] *)
Definition TrimPrefix (s pre : string) : string :=
  if String.prefix pre s
  then String.substring (String.length pre) (String.length s - String.length pre) s
  else s.

Definition isSpace (a : ascii) : bool :=
  let n := N_of_ascii a in
  (n =? 32)%N || ((9 <=? n)%N && (n <=? 13)%N).

Fixpoint trimLeft (s : string) : string :=
  match s with
  | String a s' => if isSpace a then trimLeft s' else s
  | EmptyString => EmptyString
  end.

(** [strings.TrimSpace(s)], on ASCII text. *)
Definition TrimSpace (s : string) : string :=
  String.rev (trimLeft (String.rev (trimLeft s))).

(** [strconv.Itoa] / [strconv.FormatInt(v, 10)] *)
Definition Itoa (v : Z) : string :=
  NilZero.string_of_int (Z.to_int v).

(** The space-separated terms of a search query: what the search backend
    sees as the individual filters of the query string. *)
Fixpoint terms (s : string) : list string :=
  match s with
  | EmptyString => [EmptyString]
  | String a s' =>
      if Ascii.eqb a " " then EmptyString :: terms s'
      else match terms s' with
           | t :: ts => String a t :: ts
           | [] => [String a EmptyString]
           end
  end.

(** The string has no space character. *)
Fixpoint spaceFree (s : string) : bool :=
  match s with
  | EmptyString => true
  | String a s' => negb (Ascii.eqb a " ") && spaceFree s'
  end.

End Strings.

(** ** Time: a model of the calls into Go's [time] package

    An instant is a count of nanoseconds since the Unix epoch together with
    the offset (seconds east of UTC) of the local zone, taken to be the
    same at every date. The calendar is the proleptic Gregorian calendar.
    The package computes dates on "absolute" seconds, a 64-bit unsigned
    count of the seconds since the first day of the year -292277022399:
    [AddDays] computes on them as [time.AddDate] and [time.Date] do, modulo
    [2^64]. *)

Module GoTime.

Record Time := mkTime { unixNano : Z; zoneOffset : Z }.

Definition Duration := Z.

Definition Nanosecond : Duration := 1.
Definition Microsecond : Duration := 1000 * Nanosecond.
Definition Millisecond : Duration := 1000 * Microsecond.
Definition Second : Duration := 1000 * Millisecond.
Definition Minute : Duration := 60 * Second.
Definition Hour : Duration := 60 * Minute.

Definition secondsPerDay : Z := 86400.

(** Number of the local calendar day of [t] (day 0 is 1970-01-01). *)
Definition localDay (t : Time) : Z :=
  (unixNano t / Second + zoneOffset t) / secondsPerDay.

(** Year, month and day of a day number. *)
Definition civilFromDays (z : Z) : Z * Z * Z :=
  let z := z + 719468 in
  let era := z / 146097 in
  let doe := z - era * 146097 in
  let yoe := (doe - doe / 1460 + doe / 36524 - doe / 146096) / 365 in
  let doy := doe - (365 * yoe + yoe / 4 - yoe / 100) in
  let mp := (5 * doy + 2) / 153 in
  let d := doy - (153 * mp + 2) / 5 + 1 in
  let m := if mp <? 10 then mp + 3 else mp - 9 in
  let y := yoe + era * 400 + (if m <=? 2 then 1 else 0) in
  (y, m, d).

(** [t.Date()], for a time the package can represent. *)
Definition Date (t : Time) : Z * Z * Z := civilFromDays (localDay t).

(** The absolute epoch in Unix seconds: minus the constant
    [unixToInternal + internalToAbsolute] of [time/time.go]. *)
Definition absoluteEpoch : Z := - 9223372028715321600.

(** Seconds since the Unix epoch on the local clock. *)
Definition localSeconds (t : Time) : Z := unixNano t / Second + zoneOffset t.

(** [t.locabs()]: the local time in absolute seconds, a [uint64]. *)
Definition locabs (t : Time) : Z := (localSeconds t - absoluteEpoch) mod 2 ^ 64.


(** [t.AddDate(0, 0, days)]. [AddDate] hands the date and the clock of
    [t], with [days] added to the day of the month, to [Date], which sums
    the days since the absolute epoch and multiplies by the seconds of a
    day in [uint64]: the absolute seconds of the result are those of [t]
    plus [days] times 86400, modulo [2^64]. The result keeps the fraction
    of a second and the zone of [t]. *)
Definition AddDays (t : Time) (days : Z) : Time :=
  let abs := (locabs t + days * secondsPerDay) mod 2 ^ 64 in
  mkTime ((absoluteEpoch + abs - zoneOffset t) * Second + unixNano t mod Second)
         (zoneOffset t).

(** Zero padding of [appendInt(b, x, width)]. *)
Fixpoint zeros (n : nat) : string :=
  match n with
  | O => EmptyString
  | S n' => String "0" (zeros n')
  end.

(** [appendInt(b, x, width)] of [time/format.go]: sign, zero padding up to
    [width] digits, decimal digits. *)
Definition appendInt (x : Z) (width : nat) : string :=
  let digits := NilZero.string_of_uint (N.to_uint (Z.to_N (Z.abs x))) in
  (if x <? 0 then "-" else "") +:+
  zeros (width - String.length digits) +:+ digits.

(** The layout "2006-01-02" applied to a calendar date. *)
Definition formatDate (date : Z * Z * Z) : string :=
  let '(y, m, d) := date in
  appendInt y 4 +:+ "-" +:+ appendInt m 2 +:+ "-" +:+ appendInt d 2.

(** [t.Format("2006-01-02")] *)
Definition Format_2006_01_02 (t : Time) : string := formatDate (Date t).

Definition clamp (z : Z) : Z :=
  Z.max GoInt.minInt (Z.min GoInt.maxInt z).

(** [t.Sub(u)] on wall-clock readings: saturates at the [int64] bounds. *)
Definition Sub (t u : Time) : Duration := clamp (unixNano t - unixNano u).

(** [lessThanHalf(x, y)]: [x+x < y] computed without overflow. *)
Definition lessThanHalf (x y : Duration) : bool := x + x <? y.

(** [d.Round(m)] of [time/time.go]: nearest multiple of [m], halfway
    values away from zero, saturating when the result overflows. *)
Definition Round (d m : Duration) : Duration :=
  if m <=? 0 then d
  else
    let r := Z.rem d m in
    if d <? 0 then
      let r := - r in
      if lessThanHalf r m then d + r
      else
        let d1 := GoInt.wrap (d - m + r) in
        if d1 <? d then d1 else GoInt.minInt
    else
      if lessThanHalf r m then d - r
      else
        let d1 := GoInt.wrap (d + m - r) in
        if d1 >? d then d1 else GoInt.maxInt.

(** Rounding down to a multiple of [m]. The source does not call it: it
    is what "rounded down to whole days" would compute. *)
Definition floorTo (d m : Duration) : Duration := d / m * m.

End GoTime.

(** ** Duration rendering: a model of [durafmt.Parse(d).String()]

    The duration is split greedily into years (365 days), weeks, days,
    hours, minutes, seconds, milliseconds and microseconds; every non-zero
    component is printed with its unit, singular for 1; a zero duration is
    printed as "0 seconds"; a negative duration gets a leading "-". *)

Module Durafmt.

Import GoTime.

Definition units : list (string * string * Z) :=
  [ ("years", "year", 365 * 24 * 3600 * 1000000);
    ("weeks", "week", 7 * 24 * 3600 * 1000000);
    ("days", "day", 24 * 3600 * 1000000);
    ("hours", "hour", 3600 * 1000000);
    ("minutes", "minute", 60 * 1000000);
    ("seconds", "second", 1000000);
    ("milliseconds", "millisecond", 1000);
    ("microseconds", "microsecond", 1) ].

Fixpoint render (us : list (string * string * Z)) (remaining : Z) (isZero : bool) : string :=
  match us with
  | [] => EmptyString
  | (plural, singular, size) :: us' =>
      let v := Z.quot remaining size in
      let rest := remaining - v * size in
      (if 1 <? v then Strings.Itoa v +:+ " " +:+ plural +:+ " "
       else if v =? 1 then Strings.Itoa v +:+ " " +:+ singular +:+ " "
       else if isZero && String.eqb plural "seconds" then Strings.Itoa v +:+ " " +:+ plural
       else EmptyString)
      +:+ render us' rest isZero
  end.

(** [durafmt.Parse(d).String()] *)
Definition String_ (d : Duration) : string :=
  let sign := if d <? 0 then "-" else "" in
  let d' := if d <? 0 then GoInt.wrap (- d) else d in
  Strings.TrimSpace (sign +:+ render units (Z.quot d' Microsecond) (d' =? 0)).

End Durafmt.

(** ** The world outside the repository *)

(** The fields of [github.Issue] and [github.User] the code reads. *)
Record github_User := mkUser {
  Login : option string;
  User_HTMLURL : option string
}.

Record github_Issue := mkIssue {
  Issue_ID : option Z;
  Issue_Number : option Z;
  Issue_Title : option string;
  Issue_User : option github_User;
  Issue_RepositoryURL : option string;
  Issue_HTMLURL : option string;
  Issue_State : option string;
  Issue_CreatedAt : option GoTime.Time
}.

(** [github.ListOptions] inside [github.SearchOptions]. *)
Record ListOptions := mkListOptions { Page : Z; PerPage : Z }.

(** What one call of [client.Search.Issues] returns: an error, or a page of
    results with the number of the next page (0 when there is none). *)
Inductive SearchResponse :=
  | SearchOk (issues : list github_Issue) (NextPage : Z)
  | SearchErr (err : string).

(** [github.Client] as configured by [NewGitHubRepoActivityService]. *)
Record Client := mkClient {
  BaseURL : option string;
  AccessToken : option string
}.

(** [pageData] of [server.go]: what the page template is executed on. *)
Record pageData := mkPageData {
  Days : Z;
  PageRepos : list string;
  Report_ : option (gmap string RepoActivityReport)
}.

(** The operations the code calls and the repository does not implement:
    the clock, the search endpoint, URL parsing and the template engine
    applied to the constant [page]. [World] is the state they act on. *)
Class Platform := {
  World : Type;
  time_Now : World → GoTime.Time * World;
  Search_Issues : Client → string → ListOptions → World → SearchResponse * World;
  url_Parse : string → option string;
  tmpl_Execute : pageData → string
}.

(** ** Outcomes and the state monad of a call *)

(** A call returns, panics, or is still running when its step budget is
    used up. *)
Inductive outcome (A : Type) :=
  | Ret (a : A)
  | Panic
  | Running.
Arguments Ret {A} a.
Arguments Panic {A}.
Arguments Running {A}.

Section Monad.

Context {W : Type}.

Definition M (A : Type) : Type := W → outcome A * W.

Definition ret {A} (a : A) : M A := λ w, (Ret a, w).

Definition panic {A} : M A := λ w, (Panic, w).

Definition bind {A B} (m : M A) (k : A → M B) : M B :=
  λ w, match m w with
       | (Ret a, w') => k a w'
       | (Panic, w') => (Panic, w')
       | (Running, w') => (Running, w')
       end.

(** A call of an operation of the world, which always returns. *)
Definition call {A} (op : W → A * W) : M A :=
  λ w, let (a, w') := op w in (Ret a, w').

(** Dereference of a pointer: a nil pointer panics. *)
Definition loadPtr {A} (p : option A) : M A :=
  match p with
  | Some a => ret a
  | None => panic
  end.

Fixpoint mapM {A B} (f : A → M B) (l : list A) : M (list B) :=
  match l with
  | [] => ret []
  | a :: l' => bind (f a) (λ b, bind (mapM f l') (λ bs, ret (b :: bs)))
  end.

End Monad.

Notation "x <- m ;; k" := (bind m (λ x, k))
  (at level 100, m at next level, right associativity).

(** ** Package [ghra] ([repo-activity/repo-activity.go]) *)

Record GitHubRepoActivityService := mkService {
  client : Client;
  options : GitHubRepoActivityOptions
}.

(** Result of a Go function returning a pointer together with an [error]:
    the pointer is nil exactly when the error is not. *)
Definition result (T : Type) : Type := option T * option string.

Section Ghra.

Context `{P : Platform}.

(** [NewGitHubRepoActivityService] (lines 63-83): panics on an endpoint
    that does not parse as a URL. The service keeps the pointer to the
    options it is given; nothing writes through it while a report is
    built, so the service holds their value. *)
Definition NewGitHubRepoActivityService (opts : GitHubRepoActivityOptions)
  : M (W := World) GitHubRepoActivityService :=
  let c := mkClient None None in
  let c := if decide (Token opts = "") then c
           else mkClient None (Some (Token opts)) in
  if decide (APIEndpoint opts = "") then ret (mkService c opts)
  else match url_Parse (APIEndpoint opts) with
       | None => panic
       | Some baseURL => ret (mkService (mkClient (Some baseURL) (AccessToken c)) opts)
       end.

(** Lines 86-92 of [BuildQuery], given the reading [now] of the clock.
    [fmt.Sprintf("repo:%s", s)] and the final [Sprintf] are
    concatenations; [DaysOld*-1] is a 64-bit product. *)
Definition queryAt (ghra : GitHubRepoActivityService) (issueType : string)
    (now : GoTime.Time) : string :=
  let repos := map (String.append "repo:") (Repos (options ghra)) in
  let created :=
    GoTime.Format_2006_01_02
      (GoTime.AddDays now (GoInt.mul (DaysOld (options ghra)) (-1))) in
  "is:" +:+ issueType +:+ " " +:+ Strings.Join repos " "
  +:+ " created:>=" +:+ created.

(** [BuildQuery] (lines 85-95): reads the clock once. *)
Definition BuildQuery (ghra : GitHubRepoActivityService) (issueType : string)
  : M (W := World) string :=
  now <- call time_Now ;;
  ret (queryAt ghra issueType now).

(** Body of the inner loop of [FetchIssues] (lines 115-129): one raw
    result item becomes one [IssueInfo]. *)
Definition normalize (issue : github_Issue) : M (W := World) IssueInfo :=
  createdAt <- loadPtr (Issue_CreatedAt issue) ;;
  now <- call time_Now ;;
  let age := GoTime.Round (GoTime.Sub now createdAt) (GoTime.Hour * 24) in
  user <- loadPtr (Issue_User issue) ;;
  repositoryURL <- loadPtr (Issue_RepositoryURL issue) ;;
  ret (mkIssueInfo (Issue_ID issue) (Issue_Number issue) (Issue_Title issue)
         (mkIssueAuthor (Login user) (User_HTMLURL user))
         (Strings.TrimPrefix repositoryURL "https://api.github.com/repos/")
         (Issue_HTMLURL issue) (Issue_State issue)
         (Durafmt.String_ age)).

(** The [for] loop of [FetchIssues] (lines 108-138); [fuel] bounds the
    number of pages requested. *)
Fixpoint fetchPages (fuel : nat) (c : Client) (query : string)
    (opt : ListOptions) (issueList : list IssueInfo)
  : M (W := World) (result (list IssueInfo)) :=
  match fuel with
  | O => λ w, (Running, w)
  | S fuel' =>
      resp <- call (Search_Issues c query opt) ;;
      match resp with
      | SearchErr err => ret (None, Some err)
      | SearchOk issues nextPage =>
          infos <- mapM normalize issues ;;
          let issueList := issueList ++ infos in
          if nextPage =? 0 then ret (Some issueList, None)
          else fetchPages fuel' c query (mkListOptions nextPage (PerPage opt)) issueList
      end
  end.

(** [FetchIssues] (lines 97-141). *)
Definition FetchIssues (fuel : nat) (ghra : GitHubRepoActivityService)
    (issueType : string) : M (W := World) (result (list IssueInfo)) :=
  let opt := mkListOptions 0 200 in
  query <- BuildQuery ghra issueType ;;
  fetchPages fuel (client ghra) query opt [].

(** [BuildReport] (lines 143-174). *)
Definition BuildReport (fuel : nat) (ghra : GitHubRepoActivityService)
  : M (W := World) (result ActivityReport) :=
  r <- FetchIssues fuel ghra "issue" ;;
  match r with
  | (_, Some err) => ret (None, Some err)
  | (issues, None) =>
      r' <- FetchIssues fuel ghra "pr" ;;
      match r' with
      | (_, Some err) => ret (None, Some err)
      | (prs, None) =>
          issues <- loadPtr issues ;;
          prs <- loadPtr prs ;;
          ret (Some (buildActivityReport issues prs), None)
      end
  end.

End Ghra.

(** ** The filters of a search query *)

(** The terms of a query that are type, repository and date filters. *)
Definition typeFilters (q : string) : list string :=
  List.filter (String.prefix "is:") (Strings.terms q).

Definition repoFilters (q : string) : list string :=
  List.filter (String.prefix "repo:") (Strings.terms q).

Definition dateFilters (q : string) : list string :=
  List.filter (String.prefix "created:") (Strings.terms q).

(** The date filter "created on or after" the local calendar day [day]. *)
Definition createdSince (day : Z) : string :=
  "created:>=" +:+ GoTime.formatDate (GoTime.civilFromDays day).

(** The local calendar day [BuildQuery] formats as the cutoff, for the
    reading [now] of the clock and the configured day count (line 91). *)
Definition cutoffDay (now : GoTime.Time) (daysOld : Z) : Z :=
  GoTime.localDay (GoTime.AddDays now (GoInt.mul daysOld (-1))).


(** ** Package [server] ([server/server.go]) *)

Module Strconv.

Definition digit (a : ascii) : option Z :=
  let n := Z.of_N (N_of_ascii a) in
  if (48 <=? n) && (n <=? 57) then Some (n - 48) else None.

Fixpoint digits (s : string) (acc : Z) : option Z :=
  match s with
  | EmptyString => Some acc
  | String a s' =>
      match digit a with
      | Some d => digits s' (acc * 10 + d)
      | None => None
      end
  end.

(** [strconv.Atoi(s)]: an optional sign, then at least one decimal digit
    and nothing else; a value outside the range of [int] is an error.
    [None] stands for a non-nil [err]. *)
Definition Atoi (s : string) : option Z :=
  let '(neg, ds) :=
    match s with
    | String "-" r => (true, r)
    | String "+" r => (false, r)
    | _ => (false, s)
    end in
  match ds with
  | EmptyString => None
  | _ =>
      match digits ds 0 with
      | Some n =>
          let v := if neg : bool then - n else n in
          if (GoInt.minInt <=? v) && (v <=? GoInt.maxInt) then Some v else None
      | None => None
      end
  end.

End Strconv.

(** The server: [srv.options] points to one options struct for the whole
    life of the server, so its contents are the state that one request
    hands to the next. *)
Record server := mkServer { srv_options : GitHubRepoActivityOptions }.

(** The request, as far as the handler reads it: the parsed query string
    ([url.Values], a map from key to the list of its values). *)
Record Request := mkRequest { URL_Query : gmap string (list string) }.

(** [url.Values.Get]: the first value of the key, or the empty string. *)
Definition Values_Get (v : gmap string (list string)) (key : string) : string :=
  match v !! key with
  | Some (x :: _) => x
  | _ => EmptyString
  end.

(** [http.ResponseWriter]: the status line, once written, and the body
    written so far. *)
Record ResponseWriter := mkResponseWriter {
  status : option Z;
  body : string
}.

Definition newline : string := String (ascii_of_nat 10) EmptyString.

Definition StatusOK : Z := 200.
Definition StatusInternalServerError : Z := 500.

(** [w.WriteHeader(code)]: only the first call counts. *)
Definition WriteHeader (w : ResponseWriter) (code : Z) : ResponseWriter :=
  match status w with
  | None => mkResponseWriter (Some code) (body w)
  | Some _ => w
  end.

(** [w.Write(data)]: an implicit [WriteHeader(200)] if none was written. *)
Definition Write (w : ResponseWriter) (data : string) : ResponseWriter :=
  let w := WriteHeader w StatusOK in
  mkResponseWriter (status w) (body w +:+ data).

(** [http.Error(w, error, code)]: the status, then the text and a newline. *)
Definition http_Error (w : ResponseWriter) (error : string) (code : Z) : ResponseWriter :=
  Write (WriteHeader w code) (error +:+ newline).

(** The status the client receives. *)
Definition statusCode (w : ResponseWriter) : Z := default StatusOK (status w).

Definition setDaysOld (days : Z) (o : GitHubRepoActivityOptions) : GitHubRepoActivityOptions :=
  mkOptions (Repos o) days (APIEndpoint o) (Token o).

Section Server.

Context `{P : Platform}.

(** Lines 102-109 of [Report]: the [days] parameter, when it parses, is
    stored into the options struct the server keeps. *)
Definition applyDays (srv : server) (r : Request) : server :=
  let daysQuery := Values_Get (URL_Query r) "days" in
  if decide (daysQuery = "") then srv
  else match Strconv.Atoi daysQuery with
       | Some days => mkServer (setDaysOld days (srv_options srv))
       | None => srv
       end.

(** Lines 111-128 of [Report], on the options left by lines 102-109. The
    constant [page] is taken to parse, so that [template.Must] returns;
    [Report: report] hands the buckets of the report to the template, nil
    when there is no report; the error [tmpl.Execute] returns is dropped
    by the code. *)
Definition respond (fuel : nat) (srv : server) (w : ResponseWriter)
  : M (W := World) ResponseWriter :=
  service <- NewGitHubRepoActivityService (srv_options srv) ;;
  r <- BuildReport fuel service ;;
  let w :=
    match snd r with
    | Some err => http_Error w err StatusInternalServerError
    | None => w
    end in
  let data := mkPageData (DaysOld (srv_options srv)) (Repos (srv_options srv))
                         (RepoActivityReports <$> fst r) in
  ret (Write w (tmpl_Execute data)).

(** [Report] (lines 95-129): the outcome of the handler, the server state
    it leaves behind (also when the handler panics) and the world. The
    log line of lines 96-100 is left out. *)
Definition Report (fuel : nat) (srv : server) (w : ResponseWriter) (r : Request)
  : World → outcome ResponseWriter * server * World :=
  λ world,
    let srv := applyDays srv r in
    let (o, world') := respond fuel srv w world in
    (o, srv, world').

End Server.

(** The request without its [days] parameter. *)
Definition withoutDays (r : Request) : Request :=
  mkRequest (delete "days" (URL_Query r)).

(** [pagesFetched c query n s s']: starting the loop of [FetchIssues] in
    state [s] (page options, records so far, world), [n] page requests in a
    row succeed, each announcing a further page, and leave the loop in
    state [s'], about to request the next page. *)
Inductive pagesFetched `{P : Platform} (c : Client) (query : string)
  : nat → ListOptions * list IssueInfo * World
        → ListOptions * list IssueInfo * World → Prop :=
  | pagesFetched_none s :
      pagesFetched c query 0 s s
  | pagesFetched_next n opt issueList w issues nextPage w1 infos w2 s' :
      Search_Issues c query opt w = (SearchOk issues nextPage, w1) →
      mapM normalize issues w1 = (Ret infos, w2) →
      nextPage ≠ 0 →
      pagesFetched c query n
        (mkListOptions nextPage (PerPage opt), issueList ++ infos, w2) s' →
      pagesFetched c query (S n) (opt, issueList, w) s'.

(** ** A test double of the platform

    The world is the script of responses the search endpoint still has to
    give, one per call, the clock reading, and the log of the calls made
    so far (query and page asked for); an exhausted script answers with an
    empty last page. *)

Record ScriptedWorld := mkWorld {
  script : list SearchResponse;
  clock : GoTime.Time;
  requested : list (string * Z)
}.

Definition scriptedPlatform (render : pageData → string) : Platform := {|
  World := ScriptedWorld;
  time_Now := λ w, (clock w, w);
  Search_Issues := λ _ query opt w,
    let log := requested w ++ [(query, Page opt)] in
    match script w with
    | [] => (SearchOk [] 0, mkWorld [] (clock w) log)
    | resp :: rest => (resp, mkWorld rest (clock w) log)
    end;
  url_Parse := λ s, Some s;
  tmpl_Execute := render
|}.

(** 2026-10-30 12:00:00 UTC. *)
Definition noon : GoTime.Time := GoTime.mkTime (1793361600 * GoTime.Second) 0.

Definition hoursAgo (h : Z) : GoTime.Time :=
  GoTime.mkTime (GoTime.unixNano noon - h * GoTime.Hour) 0.

Definition rawIssue (n : Z) (repo : string) (created : GoTime.Time) : github_Issue :=
  mkIssue (Some n) (Some n) (Some "title")
          (Some (mkUser (Some "octocat") (Some "https://github.com/octocat")))
          (Some ("https://api.github.com/repos/" +:+ repo))
          (Some "https://github.com/") (Some "open") (Some created).

Definition record (n : Z) (repo : string) : IssueInfo :=
  mkIssueInfo (Some n) (Some n) (Some "title")
              (mkIssueAuthor (Some "octocat") (Some "https://github.com/octocat"))
              repo (Some "https://github.com/") (Some "open") "2 days".

Definition testOptions (repos : list string) (days : Z) : GitHubRepoActivityOptions :=
  mkOptions repos days "" "token".

Definition testService (repos : list string) (days : Z) : GitHubRepoActivityService :=
  mkService (mkClient None (Some "token")) (testOptions repos days).

Definition plainPage (d : pageData) : string :=
  "<body>" +:+ Strings.Itoa (Days d) +:+ " days</body>".

Definition daysRequest (v : string) : Request :=
  mkRequest {[ "days" := [v] ]}.

Definition plainRequest : Request := mkRequest ∅.

Definition freshWriter : ResponseWriter := mkResponseWriter None "".

Definition atNoon (responses : list SearchResponse) : ScriptedWorld :=
  mkWorld responses noon [].

Definition platform : Platform := scriptedPlatform plainPage.

(** ** Items, start-up of the server and the command line *)

(** The prefix [FetchIssues] strips from the repository URL of an item. *)
Definition apiReposPrefix : string := "https://api.github.com/repos/".

(** The three pointers the loop body of [FetchIssues] dereferences are set. *)
Definition wellFormed (issue : github_Issue) : Prop :=
  is_Some (Issue_CreatedAt issue)
  ∧ is_Some (Issue_User issue)
  ∧ is_Some (Issue_RepositoryURL issue).

(** [strings.Split(s, sep)] for a separator of one character, as both
    [main] functions call it. *)
Fixpoint strings_Split (s : string) (sep : ascii) : list string :=
  match s with
  | EmptyString => [EmptyString]
  | String a s' =>
      if Ascii.eqb a sep then EmptyString :: strings_Split s' sep
      else match strings_Split s' sep with
           | t :: ts => String a t :: ts
           | [] => [String a EmptyString]
           end
  end.

(** The string has no occurrence of the character. *)
Fixpoint charFree (c : ascii) (s : string) : bool :=
  match s with
  | EmptyString => true
  | String a s' => negb (Ascii.eqb a c) && charFree c s'
  end.

(** [deref] of [server.go] (lines 131-137), the template helper. *)
Definition deref (s : option string) : string :=
  match s with
  | Some v => v
  | None => EmptyString
  end.

(** [server.Options] (lines 29-36), without the logger. *)
Record Options := mkServerOptions {
  Opt_Repos : list string;
  Opt_DaysOld : Z;
  Opt_APIEndpoint : string;
  Opt_Token : string;
  Opt_Port : string
}.

Definition defaultDays : Z := 14.
Definition defaultPort : string := "3000".

(** Lines 52-58 of [NewServer]: the defaults for unset fields. *)
Definition withDefaults (opts : Options) : Options :=
  let opts := if Opt_DaysOld opts =? 0
              then mkServerOptions (Opt_Repos opts) defaultDays (Opt_APIEndpoint opts)
                                   (Opt_Token opts) (Opt_Port opts)
              else opts in
  if decide (Opt_Port opts = "")
  then mkServerOptions (Opt_Repos opts) (Opt_DaysOld opts) (Opt_APIEndpoint opts)
                       (Opt_Token opts) defaultPort
  else opts.

(** [NewServer] (lines 51-82): the options the server keeps. *)
Definition NewServer (opts : Options) : server :=
  let opts := withDefaults opts in
  mkServer (mkOptions (Opt_Repos opts) (Opt_DaysOld opts)
                      (Opt_APIEndpoint opts) (Opt_Token opts)).

(** [NewServer]: the address [httpServer.Addr] the server listens on. *)
Definition NewServer_Addr (opts : Options) : string :=
  ":" +:+ Opt_Port (withDefaults opts).

(** The options of the server after it has handled the requests [rs] one
    after the other: what lines 102-109 of [Report] leave each time. *)
Definition afterRequests (srv : server) (rs : list Request) : server :=
  foldl applyDays srv rs.

(** The [days] values of the requests that parse, in request order. *)
Definition parsedDays (rs : list Request) : list Z :=
  omap (λ r, Strconv.Atoi (Values_Get (URL_Query r) "days")) rs.

(** [os.Getenv]: the empty string for an unset variable. *)
Definition Getenv (env : gmap string string) (key : string) : string :=
  default EmptyString (env !! key).

(** How the start-up of the server binary ends: [log.Fatal] with a
    message, or a call of [server.NewServer] with options. *)
Inductive startup :=
  | Fatal (msg : string)
  | Start (opts : Options).

(** [main] of [cmd/server/main.go], lines 21-57: the configuration read
    from the environment. *)
Definition server_main (env : gmap string string) : startup :=
  let endpoint := Getenv env "GITHUB_ENDPOINT" in
  let token := Getenv env "GITHUB_TOKEN" in
  if decide (token = "") then Fatal "GitHub API token not configured"
  else
    let repos := Getenv env "REPORT_REPOS" in
    if decide (repos = "") then Fatal "Must set at least one repo..."
    else
      let days := Getenv env "REPORT_DAYS" in
      let parsed :=
        if decide (days = "") then Some 0
        else Strconv.Atoi days in
      match parsed with
      | None => Fatal "can not parse REPORT_DAYS"
      | Some daysOld =>
          Start (mkServerOptions (strings_Split repos ",") daysOld endpoint token
                                 (Getenv env "PORT"))
      end.

(** The flags of the command-line tool, after [flag.Parse]. *)
Record Flags := mkFlags {
  flag_repos : string;
  flag_days : Z;
  flag_endpoint : string;
  flag_token : string;
  flag_version : bool
}.

(** How lines 24-53 of the command-line [main] end: the process exits
    with a code after printing to standard output, or goes on to print
    the report. *)
Inductive cliOutcome :=
  | Exited (code : Z) (stdout : string)
  | Printing (opts : GitHubRepoActivityOptions) (report : option ActivityReport).

Section CommandLine.

Context `{P : Platform}.

(** [main] of the command-line tool, lines 24-53; [version] and [commit]
    are the build-time variables of lines 14-15. *)
Definition cli_main (fuel : nat) (version commit : string) (f : Flags)
  : M (W := World) cliOutcome :=
  if flag_version f then
    let version := if decide (version = "") then "dev" else version in
    ret (Exited 0 ("Version: " +:+ version +:+ newline
                   +:+ "Commit: " +:+ commit +:+ newline))
  else if decide (flag_repos f = "") then
    ret (Exited 1 ("Must set at least one repo..." +:+ newline))
  else
    let opts := mkOptions (strings_Split (flag_repos f) ",") (flag_days f)
                          (flag_endpoint f) (flag_token f) in
    service <- NewGitHubRepoActivityService opts ;;
    r <- BuildReport fuel service ;;
    match snd r with
    | Some err => ret (Exited 1 ("Error: " +:+ err +:+ newline))
    | None => ret (Printing opts (fst r))
    end.

End CommandLine.

(** A search endpoint that announces a further page with every answer. *)
Definition endlessPlatform : Platform := {|
  World := nat;
  time_Now := λ w, (noon, w);
  Search_Issues := λ _ _ _ w, (SearchOk [] 1, S w);
  url_Parse := λ s, Some s;
  tmpl_Execute := plainPage
|}.

(** The scripted platform with a URL parser that, as [url.Parse] does
    ("missing protocol scheme"), refuses a string that starts with a
    colon. *)
Definition strictPlatform : Platform := {|
  World := ScriptedWorld;
  time_Now := λ w, (clock w, w);
  Search_Issues := @Search_Issues platform;
  url_Parse := λ s, if String.prefix ":" s then None else Some s;
  tmpl_Execute := plainPage
|}.

(** A result of the shape the callers rely on: a value and a nil error, or
    a nil value and an error. *)
Definition valueOrError {T} (r : result T) : Prop :=
  (∃ v, r = (Some v, None)) ∨ (∃ err, r = (None, Some err)).

(** Test data: an item without its user, an item of another API host, an
    environment of the server binary and flags of the command-line tool. *)
Definition itemWithoutUser : github_Issue :=
  mkIssue (Some 7) (Some 7) (Some "title") None
          (Some "https://api.github.com/repos/a/b")
          (Some "https://github.com/") (Some "open") (Some (hoursAgo 36)).

Definition enterpriseItem : github_Issue :=
  mkIssue (Some 8) (Some 8) (Some "title")
          (Some (mkUser (Some "octocat") (Some "https://ghe.example.com/octocat")))
          (Some "https://ghe.example.com/api/v3/repos/a/b")
          (Some "https://ghe.example.com/a/b/issues/8") (Some "open")
          (Some (hoursAgo 36)).

Definition testEnv : gmap string string :=
  {[ "GITHUB_TOKEN" := "token"; "REPORT_REPOS" := "a/b,c/d" ]}.

Definition testFlags (repos : string) (version : bool) : Flags :=
  mkFlags repos 0 "" "token" version.

(** * Properties *)

(** ** Report aggregation *)

Section Aggregation.

Implicit Types (m : gmap string RepoActivityReport) (i p : IssueInfo)
               (r : string) (issues prs l : list IssueInfo).

(** One iteration of the first loop is a single map update. *)
Lemma addIssue_insert m i :
  addIssue m i
  = <[Repo i := appendIssue i (default emptyRepoActivityReport (m !! Repo i))]> m.
Proof.
  unfold addIssue, ensureBucket. apply map_eq; intros r.
  destruct (m !! Repo i) as [b|] eqn:Hb; simpl;
    destruct (decide (Repo i = r)) as [<-|Hne].
  - by rewrite lookup_alter_eq, lookup_insert_eq, Hb.
  - by rewrite lookup_alter_ne, lookup_insert_ne.
  - by rewrite lookup_alter_eq, !lookup_insert_eq.
  - by rewrite lookup_alter_ne, !lookup_insert_ne.
Qed.

Lemma addPullRequest_insert m p :
  addPullRequest m p
  = <[Repo p := appendPullRequest p (default emptyRepoActivityReport (m !! Repo p))]> m.
Proof.
  unfold addPullRequest, ensureBucket. apply map_eq; intros r.
  destruct (m !! Repo p) as [b|] eqn:Hb; simpl;
    destruct (decide (Repo p = r)) as [<-|Hne].
  - by rewrite lookup_alter_eq, lookup_insert_eq, Hb.
  - by rewrite lookup_alter_ne, lookup_insert_ne.
  - by rewrite lookup_alter_eq, !lookup_insert_eq.
  - by rewrite lookup_alter_ne, !lookup_insert_ne.
Qed.

(** *** Counting over buckets *)

Lemma sumOverBuckets_empty count : sumOverBuckets count ∅ = 0%nat.
Proof. apply map_fold_empty. Qed.

Lemma sumOverBuckets_fresh count m r b :
  m !! r = None →
  sumOverBuckets count (<[r := b]> m) = (count b + sumOverBuckets count m)%nat.
Proof.
  intros Hr. unfold sumOverBuckets.
  rewrite map_fold_insert_L; [done | intros; lia | done].
Qed.

Lemma sumOverBuckets_delete count m r b :
  m !! r = Some b →
  sumOverBuckets count m = (count b + sumOverBuckets count (delete r m))%nat.
Proof.
  intros Hr. unfold sumOverBuckets.
  rewrite (map_fold_delete_L _ _ r b m); [done | intros; lia | done].
Qed.

(** Replacing the bucket of [r] changes the sum by the change of its count. *)
Lemma sumOverBuckets_insert count m r b :
  (sumOverBuckets count (<[r := b]> m) + from_option count 0 (m !! r)
   = count b + sumOverBuckets count m)%nat.
Proof.
  destruct (m !! r) as [b0|] eqn:Hr; simpl.
  - rewrite <- (insert_delete_eq m r b).
    rewrite sumOverBuckets_fresh by apply lookup_delete_eq.
    rewrite (sumOverBuckets_delete count m r b0 Hr). lia.
  - rewrite sumOverBuckets_fresh by done. lia.
Qed.

Lemma issueCount_addIssue m i :
  sumOverBuckets issueCount (addIssue m i) = S (sumOverBuckets issueCount m).
Proof.
  rewrite addIssue_insert.
  pose proof (sumOverBuckets_insert issueCount m (Repo i)
    (appendIssue i (default emptyRepoActivityReport (m !! Repo i)))) as H.
  unfold issueCount at 3 in H. simpl in H. rewrite length_app in H. simpl in H.
  destruct (m !! Repo i); simpl in *; unfold issueCount in *; lia.
Qed.

Lemma pullRequestCount_addIssue m i :
  sumOverBuckets pullRequestCount (addIssue m i) = sumOverBuckets pullRequestCount m.
Proof.
  rewrite addIssue_insert.
  pose proof (sumOverBuckets_insert pullRequestCount m (Repo i)
    (appendIssue i (default emptyRepoActivityReport (m !! Repo i)))) as H.
  unfold pullRequestCount at 3 in H. simpl in H.
  destruct (m !! Repo i); simpl in *; unfold pullRequestCount in *; lia.
Qed.

Lemma issueCount_addPullRequest m p :
  sumOverBuckets issueCount (addPullRequest m p) = sumOverBuckets issueCount m.
Proof.
  rewrite addPullRequest_insert.
  pose proof (sumOverBuckets_insert issueCount m (Repo p)
    (appendPullRequest p (default emptyRepoActivityReport (m !! Repo p)))) as H.
  unfold issueCount at 3 in H. simpl in H.
  destruct (m !! Repo p); simpl in *; unfold issueCount in *; lia.
Qed.

Lemma pullRequestCount_addPullRequest m p :
  sumOverBuckets pullRequestCount (addPullRequest m p)
  = S (sumOverBuckets pullRequestCount m).
Proof.
  rewrite addPullRequest_insert.
  pose proof (sumOverBuckets_insert pullRequestCount m (Repo p)
    (appendPullRequest p (default emptyRepoActivityReport (m !! Repo p)))) as H.
  unfold pullRequestCount at 3 in H. simpl in H. rewrite length_app in H. simpl in H.
  destruct (m !! Repo p); simpl in *; unfold pullRequestCount in *; lia.
Qed.

Lemma counts_foldl_addIssue l m :
  sumOverBuckets issueCount (foldl addIssue m l)
    = (sumOverBuckets issueCount m + length l)%nat
  ∧ sumOverBuckets pullRequestCount (foldl addIssue m l)
    = sumOverBuckets pullRequestCount m.
Proof.
  revert m. induction l as [|i l IH]; intros m; simpl.
  - split; lia.
  - destruct (IH (addIssue m i)) as [-> ->].
    rewrite issueCount_addIssue, pullRequestCount_addIssue. split; lia.
Qed.

Lemma counts_foldl_addPullRequest l m :
  sumOverBuckets issueCount (foldl addPullRequest m l)
    = sumOverBuckets issueCount m
  ∧ sumOverBuckets pullRequestCount (foldl addPullRequest m l)
    = (sumOverBuckets pullRequestCount m + length l)%nat.
Proof.
  revert m. induction l as [|p l IH]; intros m; simpl.
  - split; lia.
  - destruct (IH (addPullRequest m p)) as [-> ->].
    rewrite issueCount_addPullRequest, pullRequestCount_addPullRequest. split; lia.
Qed.

(** C1. For every pair of input sequences, the report built from them has
    [TotalIssues] equal to the number of issues given and
    [TotalPullRequests] equal to the number of pull requests given, and
    the lengths of the [Issues] lists of all buckets add up to
    [TotalIssues], those of the [PullRequests] lists to
    [TotalPullRequests]. *)
Theorem BuildReport_totals issues prs :
  let report := buildActivityReport issues prs in
  TotalIssues report = Z.of_nat (length issues)
  ∧ TotalPullRequests report = Z.of_nat (length prs)
  ∧ Z.of_nat (sumOverBuckets issueCount (RepoActivityReports report))
    = TotalIssues report
  ∧ Z.of_nat (sumOverBuckets pullRequestCount (RepoActivityReports report))
    = TotalPullRequests report.
Proof.
  simpl. unfold groupByRepo.
  destruct (counts_foldl_addPullRequest prs (foldl addIssue ∅ issues)) as [-> ->].
  destruct (counts_foldl_addIssue issues ∅) as [-> ->].
  rewrite !sumOverBuckets_empty. repeat split; f_equal; lia.
Qed.

(** *** Buckets *)

Lemma recordsOf_cons r i l :
  recordsOf r (i :: l) = if decide (Repo i = r) then i :: recordsOf r l else recordsOf r l.
Proof. unfold recordsOf. by rewrite filter_cons. Qed.

Lemma recordsOf_app r l1 l2 :
  recordsOf r (l1 ++ l2) = recordsOf r l1 ++ recordsOf r l2.
Proof. apply filter_app. Qed.

Lemma recordsOf_nil_iff r l :
  recordsOf r l = [] ↔ ∀ i, i ∈ l → Repo i ≠ r.
Proof.
  induction l as [|j l IH].
  - split; [intros _ i Hi; by apply elem_of_nil in Hi | done].
  - rewrite recordsOf_cons. destruct (decide (Repo j = r)) as [Hj|Hj].
    + split; [done | intros H; exfalso; apply (H j); [left | done]].
    + rewrite IH. split.
      * intros H i Hi. apply elem_of_cons in Hi as [->|Hi]; [done | by apply H].
      * intros H i Hi. apply H. by right.
Qed.

(** The bucket of [r] after the first loop has run over [l] from [m]. *)
Lemma lookup_foldl_addIssue l m r :
  foldl addIssue m l !! r
  = match m !! r with
    | Some b => Some (mkRepoActivityReport (Issues b ++ recordsOf r l) (PullRequests b))
    | None => match recordsOf r l with
              | [] => None
              | issues' => Some (mkRepoActivityReport issues' [])
              end
    end.
Proof.
  revert m. induction l as [|i l IH]; intros m; simpl.
  - destruct (m !! r) as [[bi bp]|]; simpl; [by rewrite app_nil_r | done].
  - rewrite IH, addIssue_insert, recordsOf_cons.
    destruct (decide (Repo i = r)) as [<-|Hne].
    + rewrite lookup_insert_eq. destruct (m !! Repo i) as [b|]; simpl.
      * by rewrite <- app_assoc.
      * done.
    + by rewrite lookup_insert_ne.
Qed.

Lemma lookup_foldl_addPullRequest l m r :
  foldl addPullRequest m l !! r
  = match m !! r with
    | Some b => Some (mkRepoActivityReport (Issues b) (PullRequests b ++ recordsOf r l))
    | None => match recordsOf r l with
              | [] => None
              | prs' => Some (mkRepoActivityReport [] prs')
              end
    end.
Proof.
  revert m. induction l as [|p l IH]; intros m; simpl.
  - destruct (m !! r) as [[bi bp]|]; simpl; [by rewrite app_nil_r | done].
  - rewrite IH, addPullRequest_insert, recordsOf_cons.
    destruct (decide (Repo p = r)) as [<-|Hne].
    + rewrite lookup_insert_eq. destruct (m !! Repo p) as [b|]; simpl.
      * by rewrite <- app_assoc.
      * done.
    + by rewrite lookup_insert_ne.
Qed.

(** The report map holds, for every repository, exactly its bucket. *)
Lemma lookup_groupByRepo issues prs r :
  groupByRepo issues prs !! r = bucketOf r issues prs.
Proof.
  unfold groupByRepo, bucketOf.
  rewrite lookup_foldl_addPullRequest, lookup_foldl_addIssue, lookup_empty.
  destruct (recordsOf r issues), (recordsOf r prs); done.
Qed.

(** C2. For every pair of input sequences the records are grouped by
    their [Repo] field into one bucket per repository, shared by the
    issues and the pull requests of that repository: the bucket of a
    repository holds exactly the issues of that repository in their input
    order and exactly its pull requests in their input order, however the
    records of different repositories are interleaved. The bucket comes
    into being with the first record of the repository: at every point of
    either loop the map holds, for each repository, the bucket of the
    records processed so far, and none for a repository not yet seen. *)
Theorem BuildReport_groups_by_repo (seenIssues restIssues seenPRs restPRs : list IssueInfo) r :
  let issues := seenIssues ++ restIssues in
  let prs := seenPRs ++ restPRs in
  RepoActivityReports (buildActivityReport issues prs) !! r = bucketOf r issues prs
  ∧ foldl addIssue ∅ seenIssues !! r = bucketOf r seenIssues []
  ∧ foldl addPullRequest (foldl addIssue ∅ issues) seenPRs !! r
    = bucketOf r issues seenPRs.
Proof.
  intros issues prs. split; [apply lookup_groupByRepo|].
  split; [apply (lookup_groupByRepo seenIssues [])|].
  apply (lookup_groupByRepo issues seenPRs).
Qed.

(** C8. For every pair of input sequences, a repository for which neither
    input holds a record has no entry in the report map: the key is
    absent. The configured repository list is not an input of the
    grouping, so this holds also for a configured repository. *)
Theorem BuildReport_no_bucket_without_records issues prs r :
  (∀ i, i ∈ issues → Repo i ≠ r) →
  (∀ p, p ∈ prs → Repo p ≠ r) →
  RepoActivityReports (buildActivityReport issues prs) !! r = None.
Proof.
  intros Hi Hp. simpl. rewrite lookup_groupByRepo. unfold bucketOf.
  apply recordsOf_nil_iff in Hi, Hp. by rewrite Hi, Hp.
Qed.

End Aggregation.

(** ** The query builder *)

Section Terms.

Import Strings.

Lemma append_cons x (a b : string) : String x a +:+ b = String x (a +:+ b).
Proof. reflexivity. Qed.

Lemma append_assoc (a b c : string) : (a +:+ b) +:+ c = a +:+ (b +:+ c).
Proof.
  induction a as [|x a IH]; [done|]. rewrite !append_cons. f_equal. apply IH.
Qed.

Lemma length_append (a b : string) :
  String.length (a +:+ b) = (String.length a + String.length b)%nat.
Proof.
  induction a as [|x a IH]; [done|]. rewrite append_cons. simpl. by rewrite IH.
Qed.

Lemma spaceFree_app a b :
  spaceFree (a +:+ b) = spaceFree a && spaceFree b.
Proof.
  induction a as [|x a IH]; [done|]. rewrite append_cons. simpl.
  rewrite IH. apply andb_assoc.
Qed.

Lemma terms_spaceFree a : spaceFree a = true → terms a = [a].
Proof.
  induction a as [|x a IH]; simpl; [done|].
  intros [Hx Ha]%andb_true_iff. apply negb_true_iff in Hx. rewrite Hx.
  by rewrite (IH Ha).
Qed.

(** A space-free term followed by a space is the first term. *)
Lemma terms_app_space a s :
  spaceFree a = true → terms (a +:+ String " " s) = a :: terms s.
Proof.
  induction a as [|x a IH]; [done|]. rewrite append_cons. simpl.
  intros [Hx Ha]%andb_true_iff. apply negb_true_iff in Hx. rewrite Hx.
  by rewrite (IH Ha).
Qed.

(** The terms of a space-joined list followed by one more term: the list
    itself, or one empty term when the list is empty. *)
Lemma terms_Join_space (l : list string) d :
  Forall (λ t, spaceFree t = true) l → spaceFree d = true →
  terms (Join l " " +:+ String " " d)
  = match l with [] => [EmptyString] | _ => l end ++ [d].
Proof.
  intros Hl Hd. induction Hl as [|x l Hx Hl IH].
  - change (terms (String " " d) = [EmptyString; d]). simpl.
    by rewrite (terms_spaceFree d Hd).
  - destruct l as [|y l].
    + change (terms (x +:+ String " " d) = [x; d]).
      by rewrite (terms_app_space x d Hx), (terms_spaceFree d Hd).
    + change (Join (x :: y :: l) " ") with (x +:+ String " " (Join (y :: l) " ")).
      rewrite append_assoc, append_cons.
      change (EmptyString +:+ Join (y :: l) " " +:+ String " " d)
        with (Join (y :: l) " " +:+ String " " d).
      rewrite (terms_app_space x _ Hx). simpl. f_equal. apply IH.
Qed.

Lemma spaceFree_digits (u : Decimal.uint) :
  spaceFree (NilEmpty.string_of_uint u) = true.
Proof. induction u; simpl; done. Qed.

Lemma spaceFree_zeros n : spaceFree (GoTime.zeros n) = true.
Proof. induction n; simpl; done. Qed.

Lemma spaceFree_appendInt x width : spaceFree (GoTime.appendInt x width) = true.
Proof.
  unfold GoTime.appendInt. rewrite !spaceFree_app, spaceFree_zeros.
  assert (spaceFree (NilZero.string_of_uint (N.to_uint (Z.to_N (Z.abs x)))) = true) as ->.
  { unfold NilZero.string_of_uint. destruct (N.to_uint _) eqn:E; try done;
      rewrite <- E; apply spaceFree_digits. }
  by destruct (x <? 0).
Qed.

Lemma spaceFree_createdSince day : spaceFree (createdSince day) = true.
Proof.
  unfold createdSince, GoTime.formatDate.
  destruct (GoTime.civilFromDays day) as [[y m] d].
  rewrite !spaceFree_app, !spaceFree_appendInt. done.
Qed.

Lemma filter_repo_prefixed (p : string → bool) (l : list string) (v : bool) :
  (∀ s, p ("repo:" +:+ s) = v) →
  List.filter p (map (String.append "repo:") l)
  = if v then map (String.append "repo:") l else [].
Proof.
  intros Hp. induction l as [|x l IH]; simpl; [by destruct v|].
  rewrite Hp, IH. by destruct v.
Qed.

Lemma filter_app_bool {A} (p : A → bool) (l1 l2 : list A) :
  List.filter p (l1 ++ l2) = List.filter p l1 ++ List.filter p l2.
Proof. apply List.filter_app. Qed.

End Terms.

Section QueryBuilder.

Context `{P : Platform}.

Import Strings.

Lemma wrap_in_range z : GoInt.in_range z → GoInt.wrap z = z.
Proof.
  unfold GoInt.in_range, GoInt.wrap, GoInt.minInt, GoInt.maxInt. intros Hz.
  rewrite Z.mod_small; lia.
Qed.


Lemma mul_minus_one_minInt : GoInt.mul GoInt.minInt (-1) = GoInt.minInt.
Proof. reflexivity. Qed.





(** The query ends in the date filter of the cutoff day. *)
Lemma queryAt_cutoff ghra kind now :
  queryAt ghra kind now
  = "is:" +:+ kind +:+ " "
    +:+ Join (map (String.append "repo:") (Repos (options ghra))) " "
    +:+ " created:>="
    +:+ GoTime.formatDate (GoTime.civilFromDays
          (cutoffDay now (DaysOld (options ghra)))).
Proof. reflexivity. Qed.

(** The terms of the query, for a space-free kind and space-free entries. *)
Lemma terms_queryAt ghra kind now :
  spaceFree kind = true →
  Forall (λ r, spaceFree r = true) (Repos (options ghra)) →
  terms (queryAt ghra kind now)
  = ("is:" +:+ kind)
    :: match Repos (options ghra) with
       | [] => [EmptyString]
       | repos => map (String.append "repo:") repos
       end
    ++ [createdSince (cutoffDay now (DaysOld (options ghra)))].
Proof.
  intros Hkind Hrepos. rewrite queryAt_cutoff.
  set (repos := map (String.append "repo:") (Repos (options ghra))).
  set (day := cutoffDay now (DaysOld (options ghra))).
  fold (createdSince day).
  change ("is:" +:+ kind +:+ " " +:+ Join repos " " +:+ " created:>="
          +:+ GoTime.formatDate (GoTime.civilFromDays day))
    with ("is:" +:+ kind +:+ String " " (Join repos " " +:+ String " " (createdSince day))).
  rewrite <- append_assoc, terms_app_space by (rewrite spaceFree_app; by rewrite Hkind).
  f_equal.
  rewrite terms_Join_space.
  - unfold repos. by destruct (Repos (options ghra)).
  - unfold repos. clear -Hrepos. induction Hrepos as [|x l Hx Hl IH]; constructor; [|done].
    rewrite spaceFree_app. by rewrite Hx.
  - apply spaceFree_createdSince.
Qed.

(** Which of the three filter prefixes each kind of term carries. *)
Lemma prefix_is_term s :
  String.prefix "is:" ("is:" +:+ s) = true
  ∧ String.prefix "repo:" ("is:" +:+ s) = false
  ∧ String.prefix "created:" ("is:" +:+ s) = false.
Proof. by destruct s. Qed.

Lemma prefix_repo_term s :
  String.prefix "is:" ("repo:" +:+ s) = false
  ∧ String.prefix "repo:" ("repo:" +:+ s) = true
  ∧ String.prefix "created:" ("repo:" +:+ s) = false.
Proof. by destruct s. Qed.

Lemma prefix_created_term s :
  String.prefix "is:" ("created:>=" +:+ s) = false
  ∧ String.prefix "repo:" ("created:>=" +:+ s) = false
  ∧ String.prefix "created:" ("created:>=" +:+ s) = true.
Proof. by destruct s. Qed.

Lemma filters_queryAt ghra kind now :
  spaceFree kind = true →
  Forall (λ r, spaceFree r = true) (Repos (options ghra)) →
  let q := queryAt ghra kind now in
  let day := cutoffDay now (DaysOld (options ghra)) in
  typeFilters q = ["is:" +:+ kind]
  ∧ repoFilters q = map (String.append "repo:") (Repos (options ghra))
  ∧ dateFilters q = [createdSince day].
Proof.
  intros Hkind Hrepos q day. unfold typeFilters, repoFilters, dateFilters, q.
  rewrite (terms_queryAt ghra kind now Hkind Hrepos). fold day.
  assert (∀ (p : string → bool) (v : bool), (∀ s, p ("repo:" +:+ s) = v) →
            p EmptyString = false →
            List.filter p match Repos (options ghra) with
                          | [] => [EmptyString]
                          | repos => map (String.append "repo:") repos
                          end
            = if v then map (String.append "repo:") (Repos (options ghra)) else []) as Hmid.
  { intros p v Hp He. destruct (Repos (options ghra)) as [|x l] eqn:E.
    - simpl. rewrite He. by destruct v.
    - by apply filter_repo_prefixed. }
  cbn [List.filter]. rewrite !filter_app_bool.
  rewrite (Hmid _ false), (Hmid _ true), (Hmid _ false);
    try done; try (intros s; apply prefix_repo_term).
  destruct (prefix_is_term kind) as (-> & -> & ->).
  unfold createdSince. cbn [List.filter].
  destruct (prefix_created_term (GoTime.formatDate (GoTime.civilFromDays day)))
    as (-> & -> & ->).
  split; [done|]. split; [apply app_nil_r | done].
Qed.




End QueryBuilder.

(** ** The paginated fetch *)

Section Fetch.

Context `{P : Platform}.

Lemma fetchPages_step fuel c query opt issueList w :
  fetchPages (S fuel) c query opt issueList w
  = match Search_Issues c query opt w with
    | (SearchErr err, w1) => (Ret (None, Some err), w1)
    | (SearchOk issues nextPage, w1) =>
        match mapM normalize issues w1 with
        | (Ret infos, w2) =>
            if nextPage =? 0 then (Ret (Some (issueList ++ infos), None), w2)
            else fetchPages fuel c query (mkListOptions nextPage (PerPage opt))
                            (issueList ++ infos) w2
        | (Panic, w2) => (Panic, w2)
        | (Running, w2) => (Running, w2)
        end
    end.
Proof.
  cbn [fetchPages]. unfold bind, call, ret.
  destruct (Search_Issues c query opt w) as [[issues nextPage|err] w1]; [|done].
  destruct (mapM normalize issues w1) as [[infos| |] w2]; [by destruct (nextPage =? 0) | done | done].
Qed.

(** A failing page request after [n] good pages ends the loop with the
    error, whatever the loop has gathered. *)
Lemma fetchPages_error c query n s s' :
  pagesFetched c query n s s' →
  ∀ err w' fuel,
    Search_Issues c query s'.1.1 s'.2 = (SearchErr err, w') →
    (n < fuel)%nat →
    fetchPages fuel c query s.1.1 s.1.2 s.2 = (Ret (None, Some err), w').
Proof.
  induction 1 as [[[opt acc] w]|n opt acc w issues nextPage w1 infos w2 s' Hs Hn Hnext _ IH];
    intros err w' fuel Herr Hfuel; (destruct fuel as [|fuel]; [lia|]);
    rewrite fetchPages_step; simpl in *.
  - by rewrite Herr.
  - rewrite Hs, Hn. apply Z.eqb_neq in Hnext. rewrite Hnext.
    apply IH; [done | lia].
Qed.

Lemma FetchIssues_unfold fuel ghra kind w :
  FetchIssues fuel ghra kind w
  = fetchPages fuel (client ghra) (queryAt ghra kind (time_Now w).1)
               (mkListOptions 0 200) [] (time_Now w).2.
Proof.
  unfold FetchIssues, BuildQuery, bind, call, ret. by destruct (time_Now w).
Qed.

(** [BuildReport] hands on the error of its first fetch, and of its
    second fetch after a first fetch that returned a list. *)
Lemma BuildReport_first_fetch_error fuel ghra w r err w' :
  FetchIssues fuel ghra "issue" w = (Ret (r, Some err), w') →
  BuildReport fuel ghra w = (Ret (None, Some err), w').
Proof. intros H. unfold BuildReport, bind. by rewrite H. Qed.

Lemma BuildReport_second_fetch_error fuel ghra w issues w1 r err w' :
  FetchIssues fuel ghra "issue" w = (Ret (issues, None), w1) →
  FetchIssues fuel ghra "pr" w1 = (Ret (r, Some err), w') →
  BuildReport fuel ghra w = (Ret (None, Some err), w').
Proof. intros H1 H2. unfold BuildReport, bind. by rewrite H1, H2. Qed.

(** When both fetches return a list, the report is the one built from
    the two lists, whatever the configured repository list. *)
Lemma BuildReport_success fuel ghra w issues w1 prs w2 :
  FetchIssues fuel ghra "issue" w = (Ret (Some issues, None), w1) →
  FetchIssues fuel ghra "pr" w1 = (Ret (Some prs, None), w2) →
  BuildReport fuel ghra w = (Ret (Some (buildActivityReport issues prs), None), w2).
Proof. intros H1 H2. unfold BuildReport, bind. by rewrite H1, H2. Qed.

(** C4. For every fetch in which a page request fails after [n] earlier
    page requests succeeded (also for [n > 0]), the fetch returns the
    error and a nil list: the records gathered from the earlier pages are
    dropped; the world is left as the failing request left it, so no
    request follows the failed one; and [BuildReport] returns the error
    and no report, whether the failing fetch is its first or its second. *)
Theorem FetchIssues_error_discards_pages fuel ghra kind w n opt issueList wn err w' :
  pagesFetched (client ghra) (queryAt ghra kind (time_Now w).1) n
               (mkListOptions 0 200, [], (time_Now w).2) (opt, issueList, wn) →
  Search_Issues (client ghra) (queryAt ghra kind (time_Now w).1) opt wn
    = (SearchErr err, w') →
  (n < fuel)%nat →
  FetchIssues fuel ghra kind w = (Ret (None, Some err), w')
  ∧ (kind = "issue" → BuildReport fuel ghra w = (Ret (None, Some err), w'))
  ∧ (kind = "pr" → ∀ w0 issues,
       FetchIssues fuel ghra "issue" w0 = (Ret (issues, None), w) →
       BuildReport fuel ghra w0 = (Ret (None, Some err), w')).
Proof.
  intros Hpages Herr Hfuel.
  assert (FetchIssues fuel ghra kind w = (Ret (None, Some err), w')) as Hfetch.
  { rewrite FetchIssues_unfold.
    by apply (fetchPages_error _ _ _ _ _ Hpages err w' fuel). }
  split; [done|]. split.
  - intros ->. by eapply BuildReport_first_fetch_error.
  - intros -> w0 issues H0. by eapply BuildReport_second_fetch_error.
Qed.

End Fetch.

(** ** The age of a record *)

Section Age.

Context `{P : Platform}.

Import GoTime.

(** Away from the [int64] bounds, [Round] returns the multiple of [m]
    nearest to [d], and of the two nearest ones the one farther from zero
    when [d] lies halfway. *)
Lemma Round_nearest d m :
  0 < m →
  GoInt.minInt + m <= d <= GoInt.maxInt - m →
  ∃ k, Round d m = k * m
     ∧ 2 * Z.abs (d - k * m) <= m
     ∧ (2 * Z.abs (d - k * m) = m → Z.abs d < Z.abs (k * m)).
Proof.
  intros Hm Hd. unfold Round, lessThanHalf.
  destruct (Z.leb_spec m 0) as [?|_]; [lia|].
  pose proof (Z.quot_rem' d m) as Hqr.
  set (q := Z.quot d m) in *. set (r := Z.rem d m) in *.
  destruct (Z.ltb_spec d 0) as [Hneg|Hpos].
  - assert (- m < r <= 0) as Hr.
    { pose proof (Z.rem_bound_pos (- d) m) as Hb.
      rewrite Z.rem_opp_l' in Hb. fold r in Hb. lia. }
    destruct (Z.ltb_spec (- r + - r) m) as [Hhalf|Hhalf].
    + exists q. split; [lia|]. split; [lia|]. lia.
    + rewrite wrap_in_range
        by (unfold GoInt.in_range, GoInt.minInt, GoInt.maxInt in *; lia).
      destruct (Z.ltb_spec (d - m + - r) d) as [_|?]; [|lia].
      exists (q - 1). split; [lia|]. split; [lia|]. nia.
  - assert (0 <= r < m) as Hr by (apply Z.rem_bound_pos; lia).
    destruct (Z.ltb_spec (r + r) m) as [Hhalf|Hhalf].
    + exists q. split; [lia|]. split; [lia|]. lia.
    + rewrite wrap_in_range
        by (unfold GoInt.in_range, GoInt.minInt, GoInt.maxInt in *; lia).
      destruct (Z.gtb_spec (d + m - r) d) as [_|?]; [|lia].
      exists (q + 1). split; [lia|]. split; [lia|]. nia.
Qed.

Lemma normalize_returns issue createdAt user repositoryURL w :
  Issue_CreatedAt issue = Some createdAt →
  Issue_User issue = Some user →
  Issue_RepositoryURL issue = Some repositoryURL →
  normalize issue w
  = (Ret (mkIssueInfo (Issue_ID issue) (Issue_Number issue) (Issue_Title issue)
            (mkIssueAuthor (Login user) (User_HTMLURL user))
            (Strings.TrimPrefix repositoryURL "https://api.github.com/repos/")
            (Issue_HTMLURL issue) (Issue_State issue)
            (Durafmt.String_ (Round (Sub (time_Now w).1 createdAt) (Hour * 24)))),
     (time_Now w).2).
Proof.
  intros Hc Hu Hr. unfold normalize, bind, call, loadPtr, ret.
  rewrite Hc, Hu, Hr. by destruct (time_Now w).
Qed.

(** C6, as it holds of the code. For every raw result item the code can turn into a
    record, the [Age] of the record is the rendering as a duration string
    of the time elapsed since the creation of the item rounded to the
    nearest whole number of days, half days rounding away from zero
    (not rounded down). *)
Theorem Age_rounds_to_nearest_day issue createdAt user repositoryURL w :
  Issue_CreatedAt issue = Some createdAt →
  Issue_User issue = Some user →
  Issue_RepositoryURL issue = Some repositoryURL →
  let elapsed := Sub (time_Now w).1 createdAt in
  GoInt.minInt + Hour * 24 <= elapsed <= GoInt.maxInt - Hour * 24 →
  ∃ info days,
    normalize issue w = (Ret info, (time_Now w).2)
    ∧ Age info = Durafmt.String_ (days * (Hour * 24))
    ∧ 2 * Z.abs (elapsed - days * (Hour * 24)) <= Hour * 24
    ∧ (2 * Z.abs (elapsed - days * (Hour * 24)) = Hour * 24 →
       Z.abs elapsed < Z.abs (days * (Hour * 24))).
Proof.
  intros Hc Hu Hr elapsed Hrange.
  destruct (Round_nearest elapsed (Hour * 24)) as (k & Hk & Hnear & Htie);
    [done | done |].
  eexists _, k. split; [by apply normalize_returns|].
  simpl. fold elapsed. by rewrite Hk.
Qed.

End Age.

(** ** The request handler *)

Section Handler.

Context `{P : Platform}.

Lemma Values_Get_withoutDays r : Values_Get (URL_Query (withoutDays r)) "days" = "".
Proof. unfold Values_Get, withoutDays. simpl. by rewrite lookup_delete_eq. Qed.

Lemma applyDays_withoutDays srv r : applyDays srv (withoutDays r) = srv.
Proof. unfold applyDays. by rewrite Values_Get_withoutDays. Qed.

(** The handler is the response of lines 116-128 on the options that
    lines 102-109 leave in the server. *)
Lemma Report_unfold fuel srv w r world :
  Report fuel srv w r world
  = ((respond fuel (applyDays srv r) w world).1, applyDays srv r,
     (respond fuel (applyDays srv r) w world).2).
Proof. unfold Report. by destruct (respond _ _ _ _). Qed.

Lemma applyDays_parsed srv r days :
  Strconv.Atoi (Values_Get (URL_Query r) "days") = Some days →
  applyDays srv r = mkServer (setDaysOld days (srv_options srv)).
Proof.
  intros Hd. unfold applyDays. rewrite Hd.
  destruct (decide (Values_Get (URL_Query r) "days" = "")) as [He|]; [|done].
  rewrite He in Hd. discriminate.
Qed.

Lemma applyDays_unparsed srv r :
  Strconv.Atoi (Values_Get (URL_Query r) "days") = None →
  applyDays srv r = srv.
Proof. intros Hd. unfold applyDays. rewrite Hd. by case_decide. Qed.

Lemma respond_success fuel srv w world ghra w1 report w2 :
  NewGitHubRepoActivityService (srv_options srv) world = (Ret ghra, w1) →
  BuildReport fuel ghra w1 = (Ret (Some report, None), w2) →
  respond fuel srv w world
  = (Ret (Write w (tmpl_Execute
            (mkPageData (DaysOld (srv_options srv)) (Repos (srv_options srv))
                        (Some (RepoActivityReports report))))), w2).
Proof. intros Hs Hb. unfold respond, bind, ret. by rewrite Hs, Hb. Qed.

Lemma respond_error fuel srv w world ghra w1 report err w2 :
  NewGitHubRepoActivityService (srv_options srv) world = (Ret ghra, w1) →
  BuildReport fuel ghra w1 = (Ret (report, Some err), w2) →
  respond fuel srv w world
  = (Ret (Write (http_Error w err StatusInternalServerError)
            (tmpl_Execute
               (mkPageData (DaysOld (srv_options srv)) (Repos (srv_options srv))
                           (RepoActivityReports <$> report)))), w2).
Proof. intros Hs Hb. unfold respond, bind, ret. by rewrite Hs, Hb. Qed.

(** C5, as it holds of the code. For every request with a [days] parameter that parses
    as an integer, the handler stores the value in the options of the
    server and builds the report of this request with it; the stored
    value stays: the server is left configured with it, and a following
    request without the parameter is served with it. *)
Theorem Report_days_stored fuel srv w r days world :
  Strconv.Atoi (Values_Get (URL_Query r) "days") = Some days →
  let srv' := mkServer (setDaysOld days (srv_options srv)) in
  Report fuel srv w r world = Report fuel srv' w (withoutDays r) world
  ∧ (Report fuel srv w r world).1.2 = srv'
  ∧ DaysOld (srv_options srv') = days
  ∧ ∀ w2 r2 world2,
      Values_Get (URL_Query r2) "days" = "" →
      Report fuel srv' w2 r2 world2
      = ((respond fuel srv' w2 world2).1, srv', (respond fuel srv' w2 world2).2).
Proof.
  intros Hd srv'. rewrite !Report_unfold, applyDays_withoutDays.
  rewrite (applyDays_parsed srv r days Hd). fold srv'.
  split; [done|]. split; [done|]. split; [done|].
  intros w2 r2 world2 H2. rewrite Report_unfold.
  unfold applyDays. rewrite H2. by case_decide.
Qed.

(** C9. For every request whose [days] parameter is present and does not
    parse as an integer, the handler behaves as if the parameter were
    absent: the options of the server are left as they were, the report
    is built with the day count stored in them, and the status is not an
    error status on account of the parameter: it is 200 whenever the
    report build succeeds. *)
Theorem Report_ignores_unparseable_days fuel srv r world :
  Values_Get (URL_Query r) "days" ≠ "" →
  Strconv.Atoi (Values_Get (URL_Query r) "days") = None →
  Report fuel srv freshWriter r world
    = Report fuel srv freshWriter (withoutDays r) world
  ∧ (Report fuel srv freshWriter r world).1.2 = srv
  ∧ Report fuel srv freshWriter r world
    = ((respond fuel srv freshWriter world).1, srv,
       (respond fuel srv freshWriter world).2)
  ∧ ∀ ghra w1 report w2,
      NewGitHubRepoActivityService (srv_options srv) world = (Ret ghra, w1) →
      BuildReport fuel ghra w1 = (Ret (Some report, None), w2) →
      ∃ resp, Report fuel srv freshWriter r world = (Ret resp, srv, w2)
            ∧ statusCode resp = StatusOK
            ∧ body resp
              = tmpl_Execute
                  (mkPageData (DaysOld (srv_options srv)) (Repos (srv_options srv))
                              (Some (RepoActivityReports report))).
Proof.
  intros _ Hd. rewrite !Report_unfold, applyDays_withoutDays.
  rewrite (applyDays_unparsed srv r Hd).
  split; [done|]. split; [done|]. split; [done|].
  intros ghra w1 report w2 Hs Hb.
  rewrite (respond_success _ _ _ _ _ _ _ _ Hs Hb). eexists. split; [done|].
  split; reflexivity.
Qed.

(** C7, what the code does. When the report build fails with an error,
    the handler writes status 500 and the error text followed by a
    newline, and then goes on to execute the page template on a nil
    report: the body is the error text followed by whatever the template
    writes, never the error text alone. The handler returns, and the
    options of the server are as the [days] parameter left them. *)
Theorem Report_fetch_error_response fuel srv r world ghra w1 err w2 :
  NewGitHubRepoActivityService (srv_options (applyDays srv r)) world = (Ret ghra, w1) →
  BuildReport fuel ghra w1 = (Ret (None, Some err), w2) →
  ∃ resp, Report fuel srv freshWriter r world = (Ret resp, applyDays srv r, w2)
        ∧ statusCode resp = StatusInternalServerError
        ∧ body resp
          = err +:+ newline
            +:+ tmpl_Execute
                  (mkPageData (DaysOld (srv_options (applyDays srv r)))
                              (Repos (srv_options (applyDays srv r))) None)
        ∧ body resp ≠ err.
Proof.
  intros Hs Hb. rewrite Report_unfold.
  rewrite (respond_error _ _ _ _ _ _ _ _ _ Hs Hb). eexists. split; [done|].
  split; [done|]. split.
  - simpl. change (EmptyString +:+ err +:+ newline) with (err +:+ newline).
    by rewrite append_assoc.
  - simpl. change (EmptyString +:+ err +:+ newline) with (err +:+ newline).
    intros Heq. apply (f_equal String.length) in Heq.
    rewrite !length_append in Heq. simpl in Heq. lia.
Qed.

End Handler.

(** ** The properties on concrete runs *)

Section Runs.

Import Strings.

(** The grouping theorem for absent repositories at work. *)
Lemma BuildReport_no_bucket_without_records_witness :
  RepoActivityReports
    (buildActivityReport [record 1 "a/b"; record 2 "c/d"] [record 3 "a/b"])
    !! "x/y" = None.
Proof.
  apply BuildReport_no_bucket_without_records; intros i Hi;
    repeat (apply elem_of_cons in Hi as [->|Hi]; [discriminate|]);
    by apply elem_of_nil in Hi.
Defined.

Example BuildReport_interleaved :
  groupByRepo [record 1 "a/b"; record 2 "c/d"; record 3 "a/b"] [record 4 "c/d"]
  = {[ "a/b" := mkRepoActivityReport [record 1 "a/b"; record 3 "a/b"] [];
       "c/d" := mkRepoActivityReport [record 2 "c/d"] [record 4 "c/d"] ]}.
Proof.
  apply map_eq; intros r. rewrite lookup_groupByRepo.
  destruct (decide (r = "a/b")) as [->|Ha]; [done|].
  destruct (decide (r = "c/d")) as [->|Hc]; [done|].
  rewrite lookup_insert_ne, lookup_singleton_ne by done.
  unfold bucketOf, recordsOf. rewrite !filter_cons, !filter_nil. simpl.
  repeat case_decide; congruence.
Qed.



Example createdSince_14_days : createdSince (GoTime.localDay noon - 14) = "created:>=2026-10-16".
Proof. reflexivity. Qed.



Example BuildQuery_three_days_ahead :
  BuildQuery (P := platform) (testService [] (-3)) "pr" (atNoon [])
  = (Ret "is:pr  created:>=2026-11-02", atNoon []).
Proof. by vm_compute. Qed.

(** A fetch whose second page fails: the record of the first page is
    dropped, and the third response of the script is never asked for. *)
Lemma FetchIssues_error_discards_pages_witness :
  let ghra := testService ["a/b"] 14 in
  let q := "is:issue repo:a/b created:>=2026-10-16" in
  let later := [SearchOk [rawIssue 2 "a/b" (hoursAgo 50)] 0] in
  let w := atNoon (SearchOk [rawIssue 1 "a/b" (hoursAgo 36)] 2 :: SearchErr "boom" :: later) in
  let w' := mkWorld later noon [(q, 0); (q, 2)] in
  FetchIssues (P := platform) 5 ghra "issue" w = (Ret (None, Some "boom"), w')
  ∧ BuildReport (P := platform) 5 ghra w = (Ret (None, Some "boom"), w').
Proof.
  intros ghra q later w w'.
  destruct (FetchIssues_error_discards_pages (P := platform) 5 ghra "issue" w 1
              (mkListOptions 2 200) [record 1 "a/b"]
              (mkWorld (SearchErr "boom" :: later) noon [(q, 0)]) "boom" w')
    as (Hfetch & Hfirst & _).
  - eapply (pagesFetched_next (P := platform) _ _ 0 _ [] _
              [rawIssue 1 "a/b" (hoursAgo 36)] 2).
    + reflexivity.
    + reflexivity.
    + done.
    + apply pagesFetched_none.
  - reflexivity.
  - lia.
  - split; [exact Hfetch | by apply Hfirst].
Defined.

(** The same failure in the second fetch of [BuildReport]. *)
Example BuildReport_second_fetch_fails :
  BuildReport (P := platform) 5 (testService ["a/b"] 14)
    (atNoon [SearchOk [rawIssue 1 "a/b" (hoursAgo 36)] 0; SearchErr "boom"])
  = (Ret (None, Some "boom"),
     mkWorld [] noon [("is:issue repo:a/b created:>=2026-10-16", 0);
                      ("is:pr repo:a/b created:>=2026-10-16", 0)]).
Proof. reflexivity. Qed.

(** The scenario of the specification: one issue, no pull request. *)
Example BuildReport_one_issue :
  BuildReport (P := platform) 5 (testService ["a/b"] 7)
    (atNoon [SearchOk [rawIssue 1 "a/b" (hoursAgo 36)] 0; SearchOk [] 0])
  = (Ret (Some (mkActivityReport
                  {[ "a/b" := mkRepoActivityReport [record 1 "a/b"] [] ]} 1 0), None),
     mkWorld [] noon [("is:issue repo:a/b created:>=2026-10-23", 0);
                      ("is:pr repo:a/b created:>=2026-10-23", 0)]).
Proof.
  erewrite BuildReport_success by reflexivity. by vm_compute.
Qed.

(** A configured repository without records has no bucket in the report. *)
Example BuildReport_configured_repo_without_records :
  ∃ report w',
    BuildReport (P := platform) 5 (testService ["a/b"; "x/y"] 7)
      (atNoon [SearchOk [rawIssue 1 "a/b" (hoursAgo 36)] 0; SearchOk [] 0])
    = (Ret (Some report, None), w')
    ∧ RepoActivityReports report !! "x/y" = None
    ∧ RepoActivityReports report !! "a/b"
      = Some (mkRepoActivityReport [record 1 "a/b"] []).
Proof.
  eexists _, _. split; [by erewrite BuildReport_success by reflexivity|].
  split; by vm_compute.
Qed.

(** An item created 36 hours ago is "2 days" old, where rounding down
    gives one day: statement C6 fails there. *)
Lemma Age_not_rounded_down_counterexample :
  let issue := rawIssue 1 "a/b" (hoursAgo 36) in
  let elapsed := GoTime.Sub noon (hoursAgo 36) in
  elapsed = 36 * GoTime.Hour
  ∧ GoTime.floorTo elapsed (GoTime.Hour * 24) = 1 * (GoTime.Hour * 24)
  ∧ Durafmt.String_ (GoTime.floorTo elapsed (GoTime.Hour * 24)) = "1 day"
  ∧ ∃ info, normalize (P := platform) issue (atNoon []) = (Ret info, atNoon [])
          ∧ Age info = "2 days"
          ∧ Age info ≠ Durafmt.String_ (GoTime.floorTo elapsed (GoTime.Hour * 24)).
Proof.
  intros issue elapsed. split; [reflexivity|]. split; [reflexivity|].
  split; [reflexivity|]. eexists. split; [reflexivity|]. split; [reflexivity|].
  intros Heq. vm_compute in Heq. discriminate Heq.
Qed.

Lemma Age_rounds_to_nearest_day_witness :
  let issue := rawIssue 1 "a/b" (hoursAgo 36) in
  ∃ info days,
    normalize (P := platform) issue (atNoon []) = (Ret info, atNoon [])
    ∧ Age info = Durafmt.String_ (days * (GoTime.Hour * 24))
    ∧ 2 * Z.abs (36 * GoTime.Hour - days * (GoTime.Hour * 24)) <= GoTime.Hour * 24
    ∧ (2 * Z.abs (36 * GoTime.Hour - days * (GoTime.Hour * 24)) = GoTime.Hour * 24 →
       Z.abs (36 * GoTime.Hour) < Z.abs (days * (GoTime.Hour * 24))).
Proof.
  intros issue.
  apply (Age_rounds_to_nearest_day (P := platform) issue (hoursAgo 36)
           (mkUser (Some "octocat") (Some "https://github.com/octocat"))
           "https://api.github.com/repos/a/b" (atNoon []));
    [reflexivity | reflexivity | reflexivity | by vm_compute].
Defined.

(** A request with [days=30] to a server configured with 14 days leaves
    the server configured with 30 days, and the next request, which has
    no [days] parameter, is built and rendered with 30 days: statement C5
    fails there. *)
Lemma Report_days_override_persists_counterexample :
  let srv := mkServer (testOptions ["a/b"] 14) in
  let first := Report (P := platform) 5 srv freshWriter (daysRequest "30") (atNoon []) in
  let second := Report (P := platform) 5 first.1.2 freshWriter plainRequest (atNoon []) in
  Strconv.Atoi (Values_Get (URL_Query (daysRequest "30")) "days") = Some 30
  ∧ DaysOld (srv_options first.1.2) = 30
  ∧ DaysOld (srv_options first.1.2) ≠ DaysOld (srv_options srv)
  ∧ second.1.1 = Ret (mkResponseWriter (Some 200) "<body>30 days</body>")
  ∧ requested second.2 = [("is:issue repo:a/b created:>=2026-09-30", 0);
                          ("is:pr repo:a/b created:>=2026-09-30", 0)].
Proof.
  intros srv first second. split; [reflexivity|]. split; [reflexivity|].
  split; [by vm_compute|]. split; reflexivity.
Qed.

Lemma Report_days_stored_witness :
  let srv := mkServer (testOptions ["a/b"] 14) in
  let srv' := mkServer (setDaysOld 30 (srv_options srv)) in
  Report (P := platform) 5 srv freshWriter (daysRequest "30") (atNoon [])
    = Report (P := platform) 5 srv' freshWriter (withoutDays (daysRequest "30")) (atNoon [])
  ∧ (Report (P := platform) 5 srv freshWriter (daysRequest "30") (atNoon [])).1.2 = srv'
  ∧ DaysOld (srv_options srv') = 30
  ∧ ∀ w2 r2 world2,
      Values_Get (URL_Query r2) "days" = "" →
      Report (P := platform) 5 srv' w2 r2 world2
      = ((respond (P := platform) 5 srv' w2 world2).1, srv',
         (respond (P := platform) 5 srv' w2 world2).2).
Proof.
  intros srv srv'.
  apply (Report_days_stored (P := platform) 5 srv freshWriter (daysRequest "30") 30 (atNoon [])).
  reflexivity.
Defined.

Lemma Report_ignores_unparseable_days_witness :
  let srv := mkServer (testOptions ["a/b"] 14) in
  Report (P := platform) 5 srv freshWriter (daysRequest "soon") (atNoon [])
    = Report (P := platform) 5 srv freshWriter (withoutDays (daysRequest "soon")) (atNoon [])
  ∧ (Report (P := platform) 5 srv freshWriter (daysRequest "soon") (atNoon [])).1.2 = srv.
Proof.
  intros srv.
  destruct (Report_ignores_unparseable_days (P := platform) 5 srv (daysRequest "soon") (atNoon []))
    as (Hsame & Hsrv & _); [discriminate | reflexivity |].
  split; [exact Hsame | exact Hsrv].
Defined.

Example Report_unparseable_days_response :
  (Report (P := platform) 5 (mkServer (testOptions ["a/b"] 14)) freshWriter
          (daysRequest "soon") (atNoon [])).1
  = (Ret (mkResponseWriter (Some 200) "<body>14 days</body>"),
     mkServer (testOptions ["a/b"] 14)).
Proof. reflexivity. Qed.

(** A failing first page: status 500, and a body that goes on after the
    error text with the page rendered on a nil report. *)
Lemma Report_fetch_error_response_witness :
  let srv := mkServer (testOptions ["a/b"] 14) in
  ∃ resp,
    Report (P := platform) 5 srv freshWriter plainRequest (atNoon [SearchErr "boom"])
    = (Ret resp, srv,
       mkWorld [] noon [("is:issue repo:a/b created:>=2026-10-16", 0)])
    ∧ statusCode resp = StatusInternalServerError
    ∧ body resp = "boom" +:+ newline +:+ "<body>14 days</body>"
    ∧ body resp ≠ "boom".
Proof.
  intros srv.
  apply (Report_fetch_error_response (P := platform) 5 srv plainRequest
           (atNoon [SearchErr "boom"]) (testService ["a/b"] 14)
           (atNoon [SearchErr "boom"]) "boom");
    reflexivity.
Defined.

End Runs.


(** ** More on the paginated fetch *)

Section FetchMore.

Context `{P : Platform}.

#[local] Instance wellFormed_dec issue : Decision (wellFormed issue).
Proof. unfold wellFormed. apply _. Defined.

Lemma normalize_wellFormed issue w :
  wellFormed issue → ∃ info, normalize issue w = (Ret info, (time_Now w).2).
Proof.
  intros ([c Hc] & [u Hu] & [url Hurl]). eexists.
  by apply (normalize_returns issue c u url).
Qed.

Lemma normalize_malformed issue w :
  ¬ wellFormed issue → ∃ w', normalize issue w = (Panic, w').
Proof.
  intros Hn. unfold normalize, bind, call, loadPtr, ret, panic.
  destruct (Issue_CreatedAt issue) as [c|] eqn:Hc; [|by eexists].
  destruct (time_Now w) as [now w1].
  destruct (Issue_User issue) as [u|] eqn:Hu; [|by eexists].
  destruct (Issue_RepositoryURL issue) as [url|] eqn:Hurl; [|by eexists].
  exfalso. apply Hn. unfold wellFormed. rewrite Hc, Hu, Hurl. eauto.
Qed.

Lemma mapM_normalize_wellFormed issues w :
  Forall wellFormed issues →
  ∃ infos w', mapM normalize issues w = (Ret infos, w')
            ∧ length infos = length issues.
Proof.
  intros H. revert w. induction H as [|issue issues Hi _ IH]; intros w.
  - by exists [], w.
  - destruct (normalize_wellFormed issue w Hi) as [info Hinfo].
    destruct (IH (time_Now w).2) as (infos & w' & Hinfos & Hlen).
    exists (info :: infos), w'. split; [|by simpl; rewrite Hlen].
    cbn [mapM]. unfold bind at 1. rewrite Hinfo.
    unfold bind at 1. by rewrite Hinfos.
Qed.

Lemma mapM_normalize_malformed issues w :
  Exists (λ issue, ¬ wellFormed issue) issues →
  ∃ w', mapM normalize issues w = (Panic, w').
Proof.
  revert w. induction issues as [|issue issues IH]; intros w H.
  - by apply Exists_nil in H.
  - cbn [mapM]. unfold bind at 1.
    destruct (decide (wellFormed issue)) as [Hi|Hi].
    + destruct (normalize_wellFormed issue w Hi) as [info ->].
      apply Exists_cons in H as [H|H]; [done|].
      destruct (IH (time_Now w).2 H) as [w' Hw']. exists w'.
      unfold bind at 1. by rewrite Hw'.
    + destruct (normalize_malformed issue w Hi) as [w' ->]. by exists w'.
Qed.

(** X4. The loop body of [FetchIssues] turns an item into a record exactly
    when the creation time, the user and the repository URL of the item
    are set; with any of the three nil it panics. It reads the clock at
    most once and does nothing else to the world. *)
Theorem normalize_returns_iff_wellFormed issue w :
  ((∃ info, normalize issue w = (Ret info, (time_Now w).2)) ↔ wellFormed issue)
  ∧ ((normalize issue w).1 = Panic ↔ ¬ wellFormed issue)
  ∧ ((normalize issue w).2 = w ∨ (normalize issue w).2 = (time_Now w).2).
Proof.
  destruct (decide (wellFormed issue)) as [Hi|Hi].
  - destruct (normalize_wellFormed issue w Hi) as [info Hinfo].
    split; [split; eauto|]. split; [|right; by rewrite Hinfo].
    rewrite Hinfo. simpl. split; [discriminate | done].
  - destruct (normalize_malformed issue w Hi) as [w' Hw'].
    split; [split; [|done]|].
    { intros [info Hinfo]. rewrite Hw' in Hinfo. discriminate. }
    split; [by rewrite Hw'|].
    revert Hw'. unfold normalize, bind, call, loadPtr, ret, panic.
    destruct (Issue_CreatedAt issue); [|intros [= <-]; by left].
    destruct (time_Now w) as [now w1]. simpl.
    destruct (Issue_User issue); [|intros [= <-]; by right].
    destruct (Issue_RepositoryURL issue); intros [= <-]; by right.
Qed.

(** The last page: an answer without a next page ends the loop with all
    the records. *)
Lemma fetchPages_last_page c query n s s' :
  pagesFetched c query n s s' →
  ∀ issues w1 infos w2 fuel,
    Search_Issues c query s'.1.1 s'.2 = (SearchOk issues 0, w1) →
    mapM normalize issues w1 = (Ret infos, w2) →
    (n < fuel)%nat →
    fetchPages fuel c query s.1.1 s.1.2 s.2 = (Ret (Some (s'.1.2 ++ infos), None), w2).
Proof.
  induction 1 as [[[opt acc] w]|n opt acc w issues' nextPage w1' infos' w2' s' Hs Hn Hnext _ IH];
    intros issues w1 infos w2 fuel Hlast Hinfos Hfuel;
    (destruct fuel as [|fuel]; [lia|]); rewrite fetchPages_step; simpl in *.
  - by rewrite Hlast, Hinfos.
  - rewrite Hs, Hn. apply Z.eqb_neq in Hnext. rewrite Hnext.
    eapply IH; [done | done | lia].
Qed.

(** Along the pages the page size stays what it was and the records
    gathered so far are only added to. *)
Lemma pagesFetched_invariant c query n s s' :
  pagesFetched c query n s s' →
  PerPage s'.1.1 = PerPage s.1.1 ∧ ∃ more, s'.1.2 = s.1.2 ++ more.
Proof.
  induction 1 as [s|n opt acc w issues nextPage w1 infos w2 s' _ _ _ _ [IHp [more IHm]]].
  - split; [done|]. exists []. by rewrite app_nil_r.
  - simpl in *. split; [done|]. exists (infos ++ more). by rewrite IHm, app_assoc.
Qed.

(** X1. A fetch whose page requests all succeed, [n] of them announcing a
    further page and the last one none, returns the records of all pages
    in page order and a nil error, for every step budget above [n]; every
    request asks for pages of 200. *)
Theorem FetchIssues_collects_pages fuel ghra kind w n opt issueList wn issues w1 infos w2 :
  pagesFetched (client ghra) (queryAt ghra kind (time_Now w).1) n
               (mkListOptions 0 200, [], (time_Now w).2) (opt, issueList, wn) →
  Search_Issues (client ghra) (queryAt ghra kind (time_Now w).1) opt wn
    = (SearchOk issues 0, w1) →
  mapM normalize issues w1 = (Ret infos, w2) →
  (n < fuel)%nat →
  FetchIssues fuel ghra kind w = (Ret (Some (issueList ++ infos), None), w2)
  ∧ PerPage opt = 200.
Proof.
  intros Hpages Hlast Hinfos Hfuel. split.
  - rewrite FetchIssues_unfold.
    by apply (fetchPages_last_page _ _ _ _ _ Hpages issues w1 infos w2 fuel).
  - by destruct (pagesFetched_invariant _ _ _ _ _ Hpages) as [Hp _].
Qed.

Lemma fetchPages_valueOrError fuel c query opt issueList w r w' :
  fetchPages fuel c query opt issueList w = (Ret r, w') → valueOrError r.
Proof.
  revert opt issueList w. induction fuel as [|fuel IH]; intros opt acc w; [done|].
  rewrite fetchPages_step.
  destruct (Search_Issues c query opt w) as [[issues nextPage|err] w1].
  - destruct (mapM normalize issues w1) as [[infos| |] w2]; [|done..].
    destruct (nextPage =? 0); [|apply IH].
    intros [= <- <-]. left. eauto.
  - intros [= <- <-]. right. eauto.
Qed.

Lemma FetchIssues_valueOrError fuel ghra kind w r w' :
  FetchIssues fuel ghra kind w = (Ret r, w') → valueOrError r.
Proof. rewrite FetchIssues_unfold. apply fetchPages_valueOrError. Qed.

Lemma BuildReport_valueOrError fuel ghra w r w' :
  BuildReport fuel ghra w = (Ret r, w') → valueOrError r.
Proof.
  unfold BuildReport, bind.
  destruct (FetchIssues fuel ghra "issue" w) as [[[issues err]| |] w1] eqn:H1; [|done..].
  destruct (FetchIssues_valueOrError _ _ _ _ _ _ H1) as [[l [= -> ->]]|[e [= -> ->]]].
  - destruct (FetchIssues fuel ghra "pr" w1) as [[[prs err]| |] w2] eqn:H2; [|done..].
    destruct (FetchIssues_valueOrError _ _ _ _ _ _ H2) as [[l' [= -> ->]]|[e [= -> ->]]].
    + intros [= <- <-]. left. eauto.
    + intros [= <- <-]. right. eauto.
  - intros [= <- <-]. right. eauto.
Qed.

(** X2. Whenever [FetchIssues] or [BuildReport] returns, it returns either
    a value with a nil error or a nil value with an error, never both and
    never neither: the dereferences of the two fetched lists in
    [BuildReport] cannot panic. *)
Theorem BuildReport_value_or_error fuel ghra :
  (∀ kind w r w', FetchIssues fuel ghra kind w = (Ret r, w') → valueOrError r)
  ∧ (∀ w r w', BuildReport fuel ghra w = (Ret r, w') → valueOrError r).
Proof.
  split.
  - intros kind w r w'. apply FetchIssues_valueOrError.
  - intros w r w'. apply BuildReport_valueOrError.
Qed.

(** X3. The loop of [FetchIssues] has no bound on the number of pages: when
    every answer of the search endpoint announces a further page (and its
    items can be turned into records), the fetch is still running after
    any number of steps. *)
Theorem FetchIssues_unbounded_pages ghra kind :
  (∀ query opt w, ∃ issues nextPage w',
      Search_Issues (client ghra) query opt w = (SearchOk issues nextPage, w')
      ∧ nextPage ≠ 0 ∧ Forall wellFormed issues) →
  ∀ fuel w, (FetchIssues fuel ghra kind w).1 = Running.
Proof.
  intros Hendless fuel w. rewrite FetchIssues_unfold.
  generalize (mkListOptions 0 200) (@nil IssueInfo) (time_Now w).2.
  generalize (queryAt ghra kind (time_Now w).1). intros query.
  induction fuel as [|fuel IH]; intros opt acc w0; [done|].
  rewrite fetchPages_step.
  destruct (Hendless query opt w0) as (issues & nextPage & w1 & -> & Hnext & Hwf).
  destruct (mapM_normalize_wellFormed issues w1 Hwf) as (infos & w2 & -> & _).
  apply Z.eqb_neq in Hnext. rewrite Hnext. apply IH.
Qed.

(** X5. A first page with an item that lacks its creation time, user or
    repository URL makes the fetch panic: no error is returned, and
    [BuildReport] panics with it, in its first fetch as in its second. *)
Theorem FetchIssues_malformed_item_panics fuel ghra kind w issues nextPage w1 :
  Search_Issues (client ghra) (queryAt ghra kind (time_Now w).1)
                (mkListOptions 0 200) (time_Now w).2
    = (SearchOk issues nextPage, w1) →
  Exists (λ issue, ¬ wellFormed issue) issues →
  (0 < fuel)%nat →
  ∃ w', FetchIssues fuel ghra kind w = (Panic, w')
      ∧ (kind = "issue" → BuildReport fuel ghra w = (Panic, w'))
      ∧ (kind = "pr" → ∀ w0 found,
           FetchIssues fuel ghra "issue" w0 = (Ret (found, None), w) →
           BuildReport fuel ghra w0 = (Panic, w')).
Proof.
  intros Hpage Hbad Hfuel.
  destruct (mapM_normalize_malformed issues w1 Hbad) as [w' Hw'].
  exists w'.
  assert (FetchIssues fuel ghra kind w = (Panic, w')) as Hfetch.
  { rewrite FetchIssues_unfold. destruct fuel as [|fuel]; [lia|].
    by rewrite fetchPages_step, Hpage, Hw'. }
  split; [done|]. split.
  - intros ->. unfold BuildReport, bind. by rewrite Hfetch.
  - intros -> w0 found H0. unfold BuildReport, bind. by rewrite H0, Hfetch.
Qed.

End FetchMore.

(** ** The fields of a record *)

Section RecordFields.

Context `{P : Platform}.

Import GoTime.

Lemma prefix_append p s : String.prefix p (p +:+ s) = true.
Proof.
  induction p as [|a p IH]; [by destruct s|].
  rewrite append_cons. simpl. by destruct (ascii_dec a a).
Qed.

Lemma prefix_true_append p s :
  String.prefix p s = true → ∃ t, s = p +:+ t.
Proof.
  revert s. induction p as [|a p IH]; intros s; [by exists s|].
  destruct s as [|b s]; simpl; [done|].
  destruct (ascii_dec a b) as [<-|]; [|done].
  intros [t ->]%IH. by exists t.
Qed.

Lemma substring_all s : String.substring 0 (String.length s) s = s.
Proof. induction s as [|a s IH]; simpl; [done | by rewrite IH]. Qed.

Lemma TrimPrefix_append p s : Strings.TrimPrefix (p +:+ s) p = s.
Proof.
  unfold Strings.TrimPrefix. rewrite prefix_append, length_append.
  replace (String.length p + String.length s - String.length p)%nat
    with (String.length s) by lia.
  induction p as [|a p IH]; [apply substring_all | by rewrite append_cons].
Qed.

(** A record that [normalize] returns is made of the fields of the item. *)
Lemma normalize_Ret issue w info w' :
  normalize issue w = (Ret info, w') →
  ∃ createdAt user repositoryURL,
    Issue_CreatedAt issue = Some createdAt
    ∧ Issue_User issue = Some user
    ∧ Issue_RepositoryURL issue = Some repositoryURL
    ∧ Repo info = Strings.TrimPrefix repositoryURL apiReposPrefix
    ∧ Age info = Durafmt.String_ (Round (Sub (time_Now w).1 createdAt) (Hour * 24))
    ∧ Title info = Issue_Title issue ∧ Status info = Issue_State issue
    ∧ Number info = Issue_Number issue ∧ URL info = Issue_HTMLURL issue.
Proof.
  intros H. destruct (Issue_CreatedAt issue) as [c|] eqn:Hc;
    [|by unfold normalize, bind, loadPtr, panic in H; rewrite Hc in H].
  destruct (Issue_User issue) as [u|] eqn:Hu.
  2:{ unfold normalize, bind, call, loadPtr, panic, ret in H.
      rewrite Hc, Hu in H. by destruct (time_Now w). }
  destruct (Issue_RepositoryURL issue) as [url|] eqn:Hurl.
  2:{ unfold normalize, bind, call, loadPtr, panic, ret in H.
      rewrite Hc, Hu, Hurl in H. by destruct (time_Now w). }
  rewrite (normalize_returns issue c u url w Hc Hu Hurl) in H.
  injection H as <- _. by exists c, u, url.
Qed.

(** X6. The [Repo] of a record is the repository URL of the item without
    the prefix of the public API: an URL made of the prefix and a name
    gives the name, and any other URL, such as one of another API host,
    is taken whole. So the record belongs to repository [r] exactly when
    the URL is the prefix followed by [r], or is [r] itself and does not
    start with the prefix. *)
Theorem normalize_Repo_of_URL issue repositoryURL w info w' :
  Issue_RepositoryURL issue = Some repositoryURL →
  normalize issue w = (Ret info, w') →
  (∀ r, repositoryURL = apiReposPrefix +:+ r → Repo info = r)
  ∧ (String.prefix apiReposPrefix repositoryURL = false → Repo info = repositoryURL)
  ∧ (∀ r, Repo info = r ↔
          repositoryURL = apiReposPrefix +:+ r
          ∨ (String.prefix apiReposPrefix repositoryURL = false ∧ repositoryURL = r)).
Proof.
  intros Hurl Hret.
  destruct (normalize_Ret issue w info w' Hret) as (c & u & url & _ & _ & Hurl' & -> & _).
  rewrite Hurl in Hurl'. injection Hurl' as <-.
  assert (∀ r, repositoryURL = apiReposPrefix +:+ r →
               Strings.TrimPrefix repositoryURL apiReposPrefix = r) as Hpre.
  { intros r ->. apply TrimPrefix_append. }
  assert (String.prefix apiReposPrefix repositoryURL = false →
          Strings.TrimPrefix repositoryURL apiReposPrefix = repositoryURL) as Hno.
  { intros Hp. unfold Strings.TrimPrefix. by rewrite Hp. }
  split; [done|]. split; [done|]. intros r. split.
  - intros Hr. destruct (String.prefix apiReposPrefix repositoryURL) eqn:Hp.
    + left. destruct (prefix_true_append _ _ Hp) as [t Ht].
      rewrite (Hpre t Ht) in Hr. by subst.
    + right. split; [done|]. by rewrite Hno in Hr.
  - intros [Hr|[Hp ->]]; [by apply Hpre | by apply Hno].
Qed.

Lemma Round_to_zero d m : - m < 2 * d < m → Round d m = 0.
Proof.
  intros Hd. unfold Round, lessThanHalf.
  destruct (Z.leb_spec m 0) as [?|_]; [lia|].
  destruct (Z.ltb_spec d 0) as [Hneg|Hpos].
  - assert (Z.rem d m = d) as ->.
    { rewrite <- (Z.opp_involutive d) at 1. rewrite Z.rem_opp_l'.
      rewrite Z.rem_small by lia. lia. }
    destruct (Z.ltb_spec (- d + - d) m); lia.
  - rewrite Z.rem_small by lia.
    destruct (Z.ltb_spec (d + d) m); lia.
Qed.

Lemma Round_to_one d m :
  m <= GoInt.maxInt → m <= 2 * d < 3 * m → Round d m = m.
Proof.
  intros Hmax Hd. unfold Round, lessThanHalf.
  destruct (Z.leb_spec m 0) as [?|_]; [lia|].
  destruct (Z.ltb_spec d 0) as [?|_]; [lia|].
  destruct (Z_lt_le_dec d m) as [Hlt|Hge].
  - rewrite Z.rem_small by lia.
    destruct (Z.ltb_spec (d + d) m); [lia|].
    rewrite wrap_in_range
      by (unfold GoInt.in_range, GoInt.minInt, GoInt.maxInt in *; lia).
    destruct (Z.gtb_spec (d + m - d) d); lia.
  - assert (Z.rem d m = d - m) as ->.
    { symmetry. apply (Z.rem_unique d m 1); lia. }
    destruct (Z.ltb_spec (d - m + (d - m)) m); lia.
Qed.

(** X12. An item created less than twelve hours before (or after) the
    reading of the clock has the age "0 seconds", and one created at least
    twelve and less than thirty-six hours before it the age "1 day". *)
Theorem Age_of_recent_item issue createdAt w info w' :
  Issue_CreatedAt issue = Some createdAt →
  normalize issue w = (Ret info, w') →
  let elapsed := Sub (time_Now w).1 createdAt in
  (- (12 * Hour) < elapsed < 12 * Hour → Age info = "0 seconds")
  ∧ (12 * Hour <= elapsed < 36 * Hour → Age info = "1 day").
Proof.
  intros Hc Hret elapsed.
  destruct (normalize_Ret issue w info w' Hret) as (c & u & url & Hc' & _ & _ & _ & -> & _).
  rewrite Hc in Hc'. injection Hc' as <-. fold elapsed. split; intros He.
  - rewrite Round_to_zero; [reflexivity|]. unfold Hour, Minute, Second, Millisecond,
      Microsecond, Nanosecond in *. lia.
  - rewrite Round_to_one; [by vm_compute | by vm_compute |].
    unfold Hour, Minute, Second, Millisecond, Microsecond, Nanosecond in *. lia.
Qed.

End RecordFields.

(** ** More on the buckets of a report *)

Section Buckets.

Implicit Types (i p : IssueInfo) (r : string) (issues prs : list IssueInfo).

Lemma elem_of_recordsOf r l i : i ∈ recordsOf r l ↔ i ∈ l ∧ Repo i = r.
Proof. unfold recordsOf. rewrite list_elem_of_filter. tauto. Qed.

(** X13. A bucket of the report is never empty, holds as issues exactly
    the given issues of its repository and as pull requests exactly the
    given pull requests of its repository: no record is filed under
    another repository or in the other list, and none is made up. *)
Theorem BuildReport_bucket_contents issues prs r b :
  RepoActivityReports (buildActivityReport issues prs) !! r = Some b →
  (Issues b ≠ [] ∨ PullRequests b ≠ [])
  ∧ (∀ i, i ∈ Issues b ↔ i ∈ issues ∧ Repo i = r)
  ∧ (∀ p, p ∈ PullRequests b ↔ p ∈ prs ∧ Repo p = r).
Proof.
  simpl. rewrite lookup_groupByRepo. unfold bucketOf. intros Hb.
  assert (b = mkRepoActivityReport (recordsOf r issues) (recordsOf r prs)
          ∧ (recordsOf r issues ≠ [] ∨ recordsOf r prs ≠ [])) as [-> Hne].
  { destruct (recordsOf r issues), (recordsOf r prs); simplify_eq; split; auto. }
  simpl. split; [done|]. split; intros x; apply elem_of_recordsOf.
Qed.

(** X14. Every record given to the grouping is found in the report, in
    the bucket of its own repository: an issue among the issues of that
    bucket, a pull request among its pull requests. *)
Theorem BuildReport_files_every_record issues prs :
  (∀ i, i ∈ issues →
     ∃ b, RepoActivityReports (buildActivityReport issues prs) !! Repo i = Some b
        ∧ i ∈ Issues b)
  ∧ (∀ p, p ∈ prs →
     ∃ b, RepoActivityReports (buildActivityReport issues prs) !! Repo p = Some b
        ∧ p ∈ PullRequests b).
Proof.
  simpl. split; intros x Hx; rewrite lookup_groupByRepo; unfold bucketOf.
  - assert (x ∈ recordsOf (Repo x) issues) as Hin by by apply elem_of_recordsOf.
    destruct (recordsOf (Repo x) issues) as [|y l] eqn:E;
      [by apply elem_of_nil in Hin|].
    destruct (recordsOf (Repo x) prs); eexists; split; try done.
  - assert (x ∈ recordsOf (Repo x) prs) as Hin by by apply elem_of_recordsOf.
    destruct (recordsOf (Repo x) prs) as [|y l] eqn:E;
      [by apply elem_of_nil in Hin|].
    destruct (recordsOf (Repo x) issues); eexists; split; try done.
Qed.

End Buckets.

(** ** Start-up and the options of the server *)

Section Startup.

Context `{P : Platform}.

Lemma Atoi_in_range s n : Strconv.Atoi s = Some n → GoInt.in_range n.
Proof.
  unfold Strconv.Atoi, GoInt.in_range.
  destruct (match s with
            | String "-" r => (true, r)
            | String "+" r => (false, r)
            | _ => (false, s)
            end) as [neg ds].
  destruct ds as [|a ds]; [done|].
  destruct (Strconv.digits (String a ds) 0) as [v|]; [|done].
  destruct (_ && _) eqn:E; [|done]. intros [= <-].
  apply andb_true_iff in E as [?%Z.leb_le ?%Z.leb_le]. done.
Qed.

Lemma applyDays_cases srv r :
  applyDays srv r
  = match Strconv.Atoi (Values_Get (URL_Query r) "days") with
    | Some days => mkServer (setDaysOld days (srv_options srv))
    | None => srv
    end.
Proof.
  destruct (Strconv.Atoi _) as [days|] eqn:E;
    [by apply applyDays_parsed | by apply applyDays_unparsed].
Qed.

Lemma parsedDays_cons r rs :
  parsedDays (r :: rs)
  = match Strconv.Atoi (Values_Get (URL_Query r) "days") with
    | Some days => days :: parsedDays rs
    | None => parsedDays rs
    end.
Proof. reflexivity. Qed.

Lemma NewServer_APIEndpoint opts :
  APIEndpoint (srv_options (NewServer opts)) = Opt_APIEndpoint opts.
Proof.
  unfold NewServer, withDefaults.
  by destruct (Opt_DaysOld opts =? 0); simpl; destruct (decide (_ = "")).
Qed.

(** X8. [NewServer] never leaves the day count at 0: a configured 0 becomes
    14 and every other value, a negative one too, is kept; repositories,
    endpoint and token are taken over unchanged, and the listen address is
    a colon and the port, 3000 when none is given. A day count of 0 can
    still be had, from a request with [days=0]. *)
Theorem NewServer_defaults opts :
  let srv := NewServer opts in
  DaysOld (srv_options srv) ≠ 0
  ∧ DaysOld (srv_options srv)
    = (if Opt_DaysOld opts =? 0 then 14 else Opt_DaysOld opts)
  ∧ Repos (srv_options srv) = Opt_Repos opts
  ∧ APIEndpoint (srv_options srv) = Opt_APIEndpoint opts
  ∧ Token (srv_options srv) = Opt_Token opts
  ∧ NewServer_Addr opts
    = ":" +:+ (if decide (Opt_Port opts = "") then "3000" else Opt_Port opts)
  ∧ DaysOld (srv_options (applyDays srv (daysRequest "0"))) = 0.
Proof.
  unfold NewServer, NewServer_Addr, withDefaults.
  destruct (Z.eqb_spec (Opt_DaysOld opts) 0) as [H0|H0]; simpl;
    destruct (decide (Opt_Port opts = "")); simpl; repeat split; done.
Qed.

Lemma afterRequests_frame srv rs :
  Repos (srv_options (afterRequests srv rs)) = Repos (srv_options srv)
  ∧ APIEndpoint (srv_options (afterRequests srv rs)) = APIEndpoint (srv_options srv)
  ∧ Token (srv_options (afterRequests srv rs)) = Token (srv_options srv).
Proof.
  unfold afterRequests. revert srv. induction rs as [|r rs IH]; intros srv; [done|].
  cbn [foldl]. destruct (IH (applyDays srv r)) as (-> & -> & ->).
  rewrite applyDays_cases. by destruct (Strconv.Atoi _).
Qed.

(** X10. Whatever requests the server has handled, its repositories, its
    endpoint and its token are those it started with; its day count is the
    [days] value of the last request in which that parameter parsed as an
    integer, and the one it started with when there was none; and a day
    count within the range of [int] stays within it. *)
Theorem afterRequests_options srv rs :
  let srv' := afterRequests srv rs in
  Repos (srv_options srv') = Repos (srv_options srv)
  ∧ APIEndpoint (srv_options srv') = APIEndpoint (srv_options srv)
  ∧ Token (srv_options srv') = Token (srv_options srv)
  ∧ DaysOld (srv_options srv')
    = default (DaysOld (srv_options srv)) (last (parsedDays rs))
  ∧ (GoInt.in_range (DaysOld (srv_options srv)) →
     GoInt.in_range (DaysOld (srv_options srv'))).
Proof.
  intros srv'. destruct (afterRequests_frame srv rs) as (HR & HE & HT).
  split; [done|]. split; [done|]. split; [done|]. clear HR HE HT.
  unfold srv', afterRequests. clear srv'. revert srv.
  induction rs as [|r rs IH]; intros srv; [done|].
  cbn [foldl]. destruct (IH (applyDays srv r)) as (HD & HI).
  rewrite HD, parsedDays_cons.
  pose proof (applyDays_cases srv r) as Hcases.
  destruct (Strconv.Atoi (Values_Get (URL_Query r) "days")) as [days|] eqn:E;
    rewrite Hcases in *.
  - split.
    + rewrite last_cons. simpl. by destruct (last (parsedDays rs)).
    + intros _. rewrite <- HD. apply HI. by apply (Atoi_in_range _ _ E).
  - split; [done|]. intros Hs. rewrite <- HD. by apply HI.
Qed.

(** X7. The endpoint is not looked at when the server is set up, but at
    every request: a server whose endpoint is set and does not parse as a
    URL panics on every request, before any call of the search endpoint
    or of the clock, and after the [days] parameter has been stored. *)
Theorem Report_panics_on_bad_endpoint opts fuel w r world :
  Opt_APIEndpoint opts ≠ "" →
  url_Parse (Opt_APIEndpoint opts) = None →
  Report fuel (NewServer opts) w r world
  = (Panic, applyDays (NewServer opts) r, world).
Proof.
  intros Hset Hbad. rewrite Report_unfold.
  assert (APIEndpoint (srv_options (applyDays (NewServer opts) r))
          = Opt_APIEndpoint opts) as He.
  { rewrite <- (NewServer_APIEndpoint opts), applyDays_cases.
    by destruct (Strconv.Atoi _). }
  unfold respond, bind, NewGitHubRepoActivityService. rewrite He, Hbad.
  by rewrite decide_False by done.
Qed.

End Startup.


(** ** The two [main] functions *)

Section Mains.

Context `{P : Platform}.

Lemma strings_Split_nonempty s sep : strings_Split s sep ≠ [].
Proof.
  destruct s as [|a s]; simpl; [done|].
  destruct (Ascii.eqb a sep); [done|]. by destruct (strings_Split s sep).
Qed.

Lemma Join_cons_char a t ts sep :
  Strings.Join (String a t :: ts) sep = String a (Strings.Join (t :: ts) sep).
Proof. by destruct ts. Qed.

(** Joining the pieces with the separator gives the string back. *)
Lemma Join_strings_Split s sep :
  Strings.Join (strings_Split s sep) (String sep EmptyString) = s.
Proof.
  induction s as [|a s IH]; simpl; [done|].
  pose proof (strings_Split_nonempty s sep) as Hne.
  destruct (Ascii.eqb_spec a sep) as [->|_];
    destruct (strings_Split s sep) as [|t ts]; try done.
  - change (Strings.Join (EmptyString :: t :: ts) (String sep EmptyString))
      with (String sep (Strings.Join (t :: ts) (String sep EmptyString))).
    by rewrite IH.
  - by rewrite Join_cons_char, IH.
Qed.

Lemma strings_Split_charFree s sep :
  Forall (λ piece, charFree sep piece = true) (strings_Split s sep).
Proof.
  induction s as [|a s IH]; simpl; [by repeat constructor|].
  destruct (Ascii.eqb a sep) eqn:E; [by constructor|].
  destruct (strings_Split s sep) as [|t ts]; [by repeat constructor; simpl; rewrite E|].
  apply Forall_cons in IH as [Ht Hts]. constructor; [|done].
  simpl. by rewrite E, Ht.
Qed.

(** X11. The server binary starts exactly when the token and the
    repository list are set and the day count, if set, parses as an
    integer; a missing token stops it whatever else is set. *)
Theorem server_main_starts_iff env :
  ((∃ opts, server_main env = Start opts) ↔
     Getenv env "GITHUB_TOKEN" ≠ ""
     ∧ Getenv env "REPORT_REPOS" ≠ ""
     ∧ (Getenv env "REPORT_DAYS" = ""
        ∨ is_Some (Strconv.Atoi (Getenv env "REPORT_DAYS"))))
  ∧ (Getenv env "GITHUB_TOKEN" = "" →
     server_main env = Fatal "GitHub API token not configured").
Proof.
  unfold server_main.
  destruct (decide (Getenv env "GITHUB_TOKEN" = "")) as [Ht|Ht].
  { split; [|done]. split; [by intros [opts ?] | by intros [? _]]. }
  split; [|done].
  destruct (decide (Getenv env "REPORT_REPOS" = "")) as [Hr|Hr].
  { split; [by intros [opts ?] | by intros (_ & ? & _)]. }
  destruct (decide (Getenv env "REPORT_DAYS" = "")) as [Hd|Hd].
  { split; [auto | eauto]. }
  destruct (Strconv.Atoi (Getenv env "REPORT_DAYS")) as [d|].
  - split; [eauto 6 | eauto].
  - split; [by intros [opts ?]|]. intros (_ & _ & [?|[d ?]]); done.
Qed.

(** X9. The options the server binary starts with: a token that is set; a
    repository list with at least one entry, none of which holds a comma,
    and which joined by commas is the configured string (nothing is
    trimmed or dropped, an empty entry neither); a day count in the range
    of [int]; and, after [NewServer], a day count that is not 0 and is 14
    when none is configured. *)
Theorem server_main_options env opts :
  server_main env = Start opts →
  Opt_Token opts ≠ ""
  ∧ Opt_Repos opts ≠ []
  ∧ Forall (λ entry, charFree "," entry = true) (Opt_Repos opts)
  ∧ Strings.Join (Opt_Repos opts) "," = Getenv env "REPORT_REPOS"
  ∧ GoInt.in_range (Opt_DaysOld opts)
  ∧ DaysOld (srv_options (NewServer opts)) ≠ 0
  ∧ (Getenv env "REPORT_DAYS" = "" → DaysOld (srv_options (NewServer opts)) = 14).
Proof.
  unfold server_main.
  destruct (decide (Getenv env "GITHUB_TOKEN" = "")) as [Ht|Ht]; [done|].
  destruct (decide (Getenv env "REPORT_REPOS" = "")) as [Hr|Hr]; [done|].
  assert (∀ d, DaysOld (srv_options (NewServer
            (mkServerOptions (strings_Split (Getenv env "REPORT_REPOS") ",") d
               (Getenv env "GITHUB_ENDPOINT") (Getenv env "GITHUB_TOKEN")
               (Getenv env "PORT")))) = if d =? 0 then 14 else d) as Hdays.
  { intros d. unfold NewServer, withDefaults. simpl.
    by destruct (d =? 0); simpl; destruct (decide (_ = "")). }
  destruct (decide (Getenv env "REPORT_DAYS" = "")) as [Hd|Hd].
  - intros [= <-]. rewrite Hdays. simpl.
    split; [done|]. split; [apply strings_Split_nonempty|].
    split; [apply strings_Split_charFree|]. split; [apply Join_strings_Split|].
    split; [by vm_compute|]. done.
  - destruct (Strconv.Atoi (Getenv env "REPORT_DAYS")) as [d|] eqn:E; [|done].
    intros [= <-]. rewrite Hdays. simpl.
    split; [done|]. split; [apply strings_Split_nonempty|].
    split; [apply strings_Split_charFree|]. split; [apply Join_strings_Split|].
    split; [by apply (Atoi_in_range _ _ E)|].
    split; [by destruct (Z.eqb_spec d 0) | done].
Qed.

(** X15. Up to the point where it prints the report, the command-line
    tool makes no request and leaves the world as it is when the version
    flag is set (it exits with code 0) or the repository list is empty (it
    exits with code 1, also with a token and a day count set); when it
    exits there with code 1, the repository list is empty or the output
    is the error line of a failed build; and when it goes on to print,
    the version flag is off, the report is not nil, the repository list
    has an entry and joins back to the flag, and the day count is the
    flag as given, 0 included. *)
Theorem cli_main_outcomes fuel version commit f w :
  (flag_version f = true →
     ∃ out, cli_main fuel version commit f w = (Ret (Exited 0 out), w))
  ∧ (flag_version f = false → flag_repos f = "" →
     cli_main fuel version commit f w
     = (Ret (Exited 1 ("Must set at least one repo..." +:+ newline)), w))
  ∧ (∀ out w',
       cli_main fuel version commit f w = (Ret (Exited 1 out), w') →
       flag_version f = false
       ∧ ((flag_repos f = "" ∧ w' = w)
          ∨ (flag_repos f ≠ "" ∧ ∃ err, out = "Error: " +:+ err +:+ newline)))
  ∧ (∀ opts report w',
       cli_main fuel version commit f w = (Ret (Printing opts report), w') →
       flag_version f = false
       ∧ flag_repos f ≠ ""
       ∧ is_Some report
       ∧ Repos opts ≠ []
       ∧ Strings.Join (Repos opts) "," = flag_repos f
       ∧ DaysOld opts = flag_days f).
Proof.
  unfold cli_main. destruct (flag_version f).
  { split; [eauto|]. split; [done|]. split.
    - intros out w' [=].
    - intros opts report w' [=]. }
  split; [done|]. destruct (decide (flag_repos f = "")) as [Hr|Hr].
  { split; [done|]. split.
    - intros out w' [= _ <-]. split; [done|]. by left.
    - intros opts report w' [=]. }
  split; [done|]. unfold bind.
  destruct (NewGitHubRepoActivityService _ w) as [[service| |] w1]; [|by split..].
  destruct (BuildReport fuel service w1) as [[[report err]| |] w2] eqn:Hb; [|by split..].
  destruct (BuildReport_valueOrError _ _ _ _ _ Hb) as [[rep [= -> ->]]|[e [= -> ->]]]; simpl.
  - split; [by intros out w' [=]|].
    intros opts report w' [= <- <- _]. simpl.
    split; [done|]. split; [done|].
    split; [eauto|]. split; [apply strings_Split_nonempty|].
    split; [apply Join_strings_Split | done].
  - split; [|by intros opts report w' [=]].
    intros out w' [= <- _]. split; [done|]. right. eauto.
Qed.

(** X17. When a page request of the first fetch fails, after any number
    of good pages, the command-line tool prints "Error: " and the error
    text on one line and exits with code 1: nothing of the pages already
    fetched is printed, and no further request is made. *)
Theorem cli_main_fetch_error fuel version commit f w service n opt issueList wn err w' :
  flag_version f = false →
  flag_repos f ≠ "" →
  NewGitHubRepoActivityService
    (mkOptions (strings_Split (flag_repos f) ",") (flag_days f)
               (flag_endpoint f) (flag_token f)) w = (Ret service, w) →
  pagesFetched (client service) (queryAt service "issue" (time_Now w).1) n
               (mkListOptions 0 200, [], (time_Now w).2) (opt, issueList, wn) →
  Search_Issues (client service) (queryAt service "issue" (time_Now w).1) opt wn
    = (SearchErr err, w') →
  (n < fuel)%nat →
  cli_main fuel version commit f w
  = (Ret (Exited 1 ("Error: " +:+ err +:+ newline)), w').
Proof.
  intros Hv Hr Hs Hpages Herr Hfuel. unfold cli_main, bind.
  rewrite Hv, decide_False by done. rewrite Hs.
  erewrite BuildReport_first_fetch_error; [done|].
  rewrite FetchIssues_unfold.
  by apply (fetchPages_error _ _ _ _ _ Hpages err w' fuel).
Qed.

Lemma strings_Split_spaceFree s sep :
  Strings.spaceFree s = true →
  Forall (λ piece, Strings.spaceFree piece = true) (strings_Split s sep).
Proof.
  induction s as [|a s IH]; simpl; [by repeat constructor|].
  intros [Ha Hs]%andb_true_iff. specialize (IH Hs).
  destruct (Ascii.eqb a sep); [by constructor|].
  destruct (strings_Split s sep) as [|t ts]; [by repeat constructor; simpl; rewrite Ha|].
  apply Forall_cons in IH as [Ht Hts]. constructor; [|done].
  simpl. by rewrite Ha, Ht.
Qed.

(** X16. From the environment to the query: when the server binary has
    started from a repository list without a space, then after any
    requests a query built for a kind without a space has, as its
    repository filters, exactly one filter per comma-separated entry of
    the configured list, in order, and exactly one type filter. *)
Theorem configured_repos_reach_query env opts rs ghra kind now :
  server_main env = Start opts →
  Strings.spaceFree (Getenv env "REPORT_REPOS") = true →
  Strings.spaceFree kind = true →
  options ghra = srv_options (afterRequests (NewServer opts) rs) →
  repoFilters (queryAt ghra kind now)
  = map (String.append "repo:") (strings_Split (Getenv env "REPORT_REPOS") ",")
  ∧ repoFilters (queryAt ghra kind now) ≠ []
  ∧ typeFilters (queryAt ghra kind now) = ["is:" +:+ kind].
Proof.
  intros Hstart Hrepos Hkind Hopts.
  assert (Repos (options ghra) = strings_Split (Getenv env "REPORT_REPOS") ",") as HR.
  { rewrite Hopts. destruct (afterRequests_frame (NewServer opts) rs) as (-> & _).
    revert Hstart. unfold server_main.
    destruct (decide (Getenv env "GITHUB_TOKEN" = "")); [done|].
    destruct (decide (Getenv env "REPORT_REPOS" = "")); [done|].
    destruct (if decide (Getenv env "REPORT_DAYS" = "") then Some 0
              else Strconv.Atoi (Getenv env "REPORT_DAYS")) as [d|]; [|done].
    intros [= <-]. unfold NewServer, withDefaults. simpl.
    by destruct (d =? 0); simpl; destruct (decide (_ = "")). }
  destruct (filters_queryAt ghra kind now Hkind) as (Ht & Hr & _).
  { rewrite HR. by apply strings_Split_spaceFree. }
  rewrite Hr, HR. split; [done|]. split; [|done].
  pose proof (strings_Split_nonempty (Getenv env "REPORT_REPOS") ",") as Hne.
  by destruct (strings_Split (Getenv env "REPORT_REPOS") ",").
Qed.

End Mains.


(** ** Further concrete runs *)

Section MoreRuns.

Lemma FetchIssues_collects_pages_witness :
  let ghra := testService ["a/b"] 14 in
  let q := "is:issue repo:a/b created:>=2026-10-16" in
  let w := atNoon [SearchOk [rawIssue 1 "a/b" (hoursAgo 36)] 2;
                   SearchOk [rawIssue 2 "a/b" (hoursAgo 50)] 0] in
  FetchIssues (P := platform) 5 ghra "issue" w
  = (Ret (Some ([record 1 "a/b"] ++ [record 2 "a/b"]), None),
     mkWorld [] noon [(q, 0); (q, 2)])
  ∧ PerPage (mkListOptions 2 200) = 200.
Proof.
  intros ghra q w.
  apply (FetchIssues_collects_pages (P := platform) 5 ghra "issue" w 1
           (mkListOptions 2 200) [record 1 "a/b"]
           (mkWorld [SearchOk [rawIssue 2 "a/b" (hoursAgo 50)] 0] noon [(q, 0)])
           [rawIssue 2 "a/b" (hoursAgo 50)]
           (mkWorld [] noon [(q, 0); (q, 2)]) [record 2 "a/b"]).
  - eapply (pagesFetched_next (P := platform) _ _ 0 _ [] _
              [rawIssue 1 "a/b" (hoursAgo 36)] 2);
      [reflexivity | reflexivity | done | apply pagesFetched_none].
  - reflexivity.
  - reflexivity.
  - lia.
Defined.

Lemma BuildReport_value_or_error_witness :
  valueOrError (None : option ActivityReport, Some "boom").
Proof.
  apply (proj2 (BuildReport_value_or_error (P := platform) 5 (testService ["a/b"] 14))
           (atNoon [SearchErr "boom"]) _
           (mkWorld [] noon [("is:issue repo:a/b created:>=2026-10-16", 0)])).
  reflexivity.
Defined.

Lemma FetchIssues_unbounded_pages_witness :
  (FetchIssues (P := endlessPlatform) 40 (testService ["a/b"] 14) "issue" 0%nat).1
  = Running.
Proof.
  apply (FetchIssues_unbounded_pages (P := endlessPlatform) (testService ["a/b"] 14)
           "issue").
  intros query opt w. exists [], 1, (S w). split; [reflexivity|].
  split; [done | constructor].
Defined.

Lemma normalize_returns_iff_wellFormed_witness :
  (normalize (P := platform) itemWithoutUser (atNoon [])).1 = Panic.
Proof.
  apply (proj2 (proj1 (proj2
           (normalize_returns_iff_wellFormed (P := platform) itemWithoutUser (atNoon []))))).
  intros (_ & [u Hu] & _). discriminate Hu.
Defined.

Lemma FetchIssues_malformed_item_panics_witness :
  let ghra := testService ["a/b"] 14 in
  let w := atNoon [SearchOk [rawIssue 1 "a/b" (hoursAgo 36); itemWithoutUser] 0] in
  ∃ w', FetchIssues (P := platform) 5 ghra "issue" w = (Panic, w')
      ∧ BuildReport (P := platform) 5 ghra w = (Panic, w').
Proof.
  intros ghra w.
  destruct (FetchIssues_malformed_item_panics (P := platform) 5 ghra "issue" w
              [rawIssue 1 "a/b" (hoursAgo 36); itemWithoutUser] 0
              (mkWorld [] noon [("is:issue repo:a/b created:>=2026-10-16", 0)]))
    as (w' & Hfetch & Hfirst & _).
  - reflexivity.
  - apply Exists_cons_tl, Exists_cons_hd. intros (_ & [u Hu] & _). discriminate Hu.
  - lia.
  - exists w'. split; [exact Hfetch | by apply Hfirst].
Defined.

Lemma normalize_Repo_of_URL_witness :
  ∃ info info' w',
    normalize (P := platform) (rawIssue 1 "a/b" (hoursAgo 36)) (atNoon []) = (Ret info, w')
    ∧ Repo info = "a/b"
    ∧ normalize (P := platform) enterpriseItem (atNoon []) = (Ret info', w')
    ∧ Repo info' = "https://ghe.example.com/api/v3/repos/a/b".
Proof.
  eexists _, _, _. split; [reflexivity|]. split.
  - apply (proj1 (normalize_Repo_of_URL (P := platform)
              (rawIssue 1 "a/b" (hoursAgo 36)) "https://api.github.com/repos/a/b"
              (atNoon []) _ _ eq_refl eq_refl)).
    reflexivity.
  - split; [reflexivity|].
    apply (proj1 (proj2 (normalize_Repo_of_URL (P := platform) enterpriseItem
              "https://ghe.example.com/api/v3/repos/a/b" (atNoon []) _ _
              eq_refl eq_refl))).
    reflexivity.
Defined.

Lemma Age_of_recent_item_witness :
  ∃ info w',
    normalize (P := platform) (rawIssue 1 "a/b" (hoursAgo 5)) (atNoon []) = (Ret info, w')
    ∧ Age info = "0 seconds".
Proof.
  eexists _, _. split; [reflexivity|].
  apply (proj1 (Age_of_recent_item (P := platform) (rawIssue 1 "a/b" (hoursAgo 5))
                  (hoursAgo 5) (atNoon []) _ _ eq_refl eq_refl)).
  by vm_compute.
Defined.

Lemma BuildReport_bucket_contents_witness :
  let b := mkRepoActivityReport [record 1 "a/b"; record 3 "a/b"] [] in
  (Issues b ≠ [] ∨ PullRequests b ≠ [])
  ∧ (∀ i, i ∈ Issues b ↔
          i ∈ [record 1 "a/b"; record 2 "c/d"; record 3 "a/b"] ∧ Repo i = "a/b")
  ∧ (∀ p, p ∈ PullRequests b ↔ p ∈ [record 4 "c/d"] ∧ Repo p = "a/b").
Proof.
  intros b.
  apply (BuildReport_bucket_contents
           [record 1 "a/b"; record 2 "c/d"; record 3 "a/b"] [record 4 "c/d"] "a/b" b).
  by vm_compute.
Defined.

Lemma BuildReport_files_every_record_witness :
  ∃ b, RepoActivityReports
         (buildActivityReport [record 1 "a/b"; record 2 "c/d"] [record 4 "c/d"])
         !! "c/d" = Some b
     ∧ record 4 "c/d" ∈ PullRequests b.
Proof.
  apply (proj2 (BuildReport_files_every_record
                  [record 1 "a/b"; record 2 "c/d"] [record 4 "c/d"]) (record 4 "c/d")).
  apply list_elem_of_singleton. reflexivity.
Defined.

Lemma afterRequests_options_witness :
  let srv := mkServer (testOptions ["a/b"] 14) in
  let rs := [daysRequest "30"; daysRequest "soon"; plainRequest] in
  DaysOld (srv_options (afterRequests srv rs)) = 30
  ∧ GoInt.in_range (DaysOld (srv_options (afterRequests srv rs))).
Proof.
  intros srv rs.
  destruct (afterRequests_options srv rs) as (_ & _ & _ & Hdays & Hrange).
  split; [exact Hdays | apply Hrange; by vm_compute].
Defined.

Lemma Report_panics_on_bad_endpoint_witness :
  let opts := mkServerOptions ["a/b"] 0 ":" "token" "" in
  Report (P := strictPlatform) 5 (NewServer opts) freshWriter (daysRequest "30") (atNoon [])
  = (Panic, applyDays (NewServer opts) (daysRequest "30"), atNoon []).
Proof.
  intros opts.
  apply (Report_panics_on_bad_endpoint (P := strictPlatform) opts 5 freshWriter
           (daysRequest "30") (atNoon [])); [discriminate | reflexivity].
Defined.

Lemma server_main_starts_iff_witness :
  ∃ opts, server_main testEnv = Start opts.
Proof.
  apply (proj2 (proj1 (server_main_starts_iff testEnv))).
  split; [discriminate|]. split; [discriminate|]. left. reflexivity.
Defined.

Lemma server_main_options_witness :
  let opts := mkServerOptions ["a/b"; "c/d"] 0 "" "token" "" in
  Opt_Token opts ≠ ""
  ∧ Opt_Repos opts ≠ []
  ∧ Forall (λ entry, charFree "," entry = true) (Opt_Repos opts)
  ∧ Strings.Join (Opt_Repos opts) "," = Getenv testEnv "REPORT_REPOS"
  ∧ GoInt.in_range (Opt_DaysOld opts)
  ∧ DaysOld (srv_options (NewServer opts)) ≠ 0
  ∧ (Getenv testEnv "REPORT_DAYS" = "" → DaysOld (srv_options (NewServer opts)) = 14).
Proof.
  intros opts. apply (server_main_options testEnv opts). reflexivity.
Defined.

Lemma cli_main_outcomes_witness :
  (∃ out, cli_main (P := platform) 5 "" "abc123" (testFlags "a/b" true) (atNoon [])
          = (Ret (Exited 0 out), atNoon []))
  ∧ cli_main (P := platform) 5 "" "abc123" (testFlags "" false) (atNoon [])
    = (Ret (Exited 1 ("Must set at least one repo..." +:+ newline)), atNoon [])
  ∧ (Strings.Join ["a/b"; "c/d"] "," = "a/b,c/d"
     ∧ DaysOld (mkOptions ["a/b"; "c/d"] 0 "" "token") = 0).
Proof.
  split; [|split].
  - apply (proj1 (cli_main_outcomes (P := platform) 5 "" "abc123"
                    (testFlags "a/b" true) (atNoon []))).
    reflexivity.
  - apply (proj1 (proj2 (cli_main_outcomes (P := platform) 5 "" "abc123"
                           (testFlags "" false) (atNoon []))));
      reflexivity.
  - destruct (proj2 (proj2 (proj2 (cli_main_outcomes (P := platform) 5 "" "abc123"
                (testFlags "a/b,c/d" false)
                (atNoon [SearchOk [rawIssue 1 "a/b" (hoursAgo 36)] 0]))))
              (mkOptions ["a/b"; "c/d"] 0 "" "token")
              (Some (buildActivityReport [record 1 "a/b"] []))
              (mkWorld [] noon
                 [("is:issue repo:a/b repo:c/d created:>=2026-10-30", 0);
                  ("is:pr repo:a/b repo:c/d created:>=2026-10-30", 0)]))
      as (_ & _ & _ & _ & Hjoin & Hdays).
    + by vm_compute.
    + split; [exact Hjoin | exact Hdays].
Defined.

Lemma cli_main_fetch_error_witness :
  let q := "is:issue repo:a/b created:>=2026-10-30" in
  cli_main (P := platform) 5 "" "abc123" (testFlags "a/b" false)
           (atNoon [SearchOk [rawIssue 1 "a/b" (hoursAgo 36)] 2; SearchErr "boom"])
  = (Ret (Exited 1 ("Error: boom" +:+ newline)), mkWorld [] noon [(q, 0); (q, 2)]).
Proof.
  intros q.
  apply (cli_main_fetch_error (P := platform) 5 "" "abc123" (testFlags "a/b" false)
           (atNoon [SearchOk [rawIssue 1 "a/b" (hoursAgo 36)] 2; SearchErr "boom"])
           (mkService (mkClient None (Some "token")) (mkOptions ["a/b"] 0 "" "token"))
           1 (mkListOptions 2 200) [record 1 "a/b"]
           (mkWorld [SearchErr "boom"] noon [(q, 0)]) "boom");
    [reflexivity | discriminate | reflexivity | | reflexivity | lia].
  eapply (pagesFetched_next (P := platform) _ _ 0 _ [] _
            [rawIssue 1 "a/b" (hoursAgo 36)] 2);
    [reflexivity | reflexivity | done | apply pagesFetched_none].
Defined.

Lemma configured_repos_reach_query_witness :
  let opts := mkServerOptions ["a/b"; "c/d"] 0 "" "token" "" in
  let ghra := mkService (mkClient None (Some "token"))
                        (srv_options (afterRequests (NewServer opts) [daysRequest "30"])) in
  repoFilters (queryAt ghra "pr" noon) = ["repo:a/b"; "repo:c/d"]
  ∧ repoFilters (queryAt ghra "pr" noon) ≠ []
  ∧ typeFilters (queryAt ghra "pr" noon) = ["is:pr"].
Proof.
  intros opts ghra.
  apply (configured_repos_reach_query testEnv opts [daysRequest "30"]
           ghra "pr" noon); reflexivity.
Defined.

End MoreRuns.
